(** * payload-tracker-go: the handlers of internal/endpoints/payloads.go

    A shallow embedding of the three HTTP handlers [Payloads],
    [RequestIdPayloads] and [PayloadArchiveLink], and the properties of
    them that the specification states.

    The handlers are imperative Go functions that read the request, call
    collaborators, write one response and return early on errors.  They are
    embedded in a small monad [Handler] that threads the package state (the
    variable [verbosity]) and the clock, records every observable effect as
    an [Event], and has an early [Return].

    Everything payloads.go calls but does not define (helpers of the same
    package, the data layer, the HTTP client, configuration) is collected in
    the record [Env]; the handlers are functions of an [Env]. *)

From stdpp Require Import base strings list gmap.
From Stdlib Require Import ZArith Ascii Lia.

Local Open Scope Z_scope.
Local Set Warnings "-register-all".

(** ** Go values *)

(** Go's [error]: only the message is kept. *)
Definition error := string.

(** A Go call returning [(T, error)]. *)
Inductive Result (A : Type) : Type :=
| Ok (a : A)
| Err (e : error).
Arguments Ok {A} a.
Arguments Err {A} e.

(** A Go slice: [None] is the nil slice, [Some l] a slice holding [l].
    payloads.go tells the two apart ([payloads == nil || len(payloads) == 0]),
    and so does encoding/json ([null] against [[]]). *)
Definition slice (A : Type) : Type := option (list A).

Definition len {A : Type} (s : slice A) : nat :=
  match s with
  | None => 0%nat
  | Some l => length l
  end.

(** [payloads == nil || len(payloads) == 0]. *)
Definition noRecords {A : Type} (payloads : slice A) : bool :=
  match payloads with None => true | Some _ => false end
  || Nat.eqb (len payloads) 0.

(** [float64] is not computed with.  The only float of the file is
    [time.Since(start).Seconds()]; it is kept as the [time.Duration]
    (an integer count of nanoseconds) it is converted from. *)
Inductive float64 : Type :=
| Seconds (d : Z).

(** ** JSON *)

(** encoding/json is an external collaborator.  JSON texts are represented by
    the value they denote; [JObject] keeps the members in document order,
    duplicates included. *)
Inductive json : Type :=
| JNull
| JBool (b : bool)
| JInt (z : Z)
| JFloat (f : float64)
| JString (s : string)
| JArray (elems : list json)
| JObject (members : list (string * json)).

(** A [[]byte] that is read as JSON, or a [string] made from one:
    [JSONText v] is a well-formed JSON text denoting [v], [NotJSON raw] stands
    for bytes that are no JSON text. *)
Inductive bytes : Type :=
| NotJSON (raw : string)
| JSONText (v : json).

(** *** Structs with scalar fields

    [structs.PayloadArchiveLink] is declared outside payloads.go.  Its
    declaration is a parameter of the model: a list of fields, each with its
    JSON key and a scalar Go type. *)
Inductive GoType : Type :=
| TString
| TBool
| TInt64.

Inductive GoVal : Type :=
| VString (s : string)
| VBool (b : bool)
| VInt64 (z : Z).

Record Field : Type := {
  fieldKey : string;
  fieldType : GoType
}.

Abbreviation Shape := (list Field).

(** A value of the struct: the field values, in declaration order. *)
Abbreviation Struct := (list GoVal).

Definition zeroValue (t : GoType) : GoVal :=
  match t with
  | TString => VString ""
  | TBool => VBool false
  | TInt64 => VInt64 0
  end.

Definition zeroStruct (sh : Shape) : Struct :=
  map (fun f => zeroValue (fieldType f)) sh.

Definition inInt64 (z : Z) : bool :=
  (- 2 ^ 63 <=? z) && (z <? 2 ^ 63).

(** ASCII case folding, as encoding/json compares keys when no field has
    exactly the key of a member. *)
Definition foldByte (c : ascii) : ascii :=
  let n := nat_of_ascii c in
  if (Nat.leb 65 n && Nat.leb n 90)%bool then ascii_of_nat (n + 32) else c.

Fixpoint foldName (s : string) : string :=
  match s with
  | EmptyString => EmptyString
  | String c s' => String (foldByte c) (foldName s')
  end.

Fixpoint indexWhere (p : Field → bool) (sh : Shape) : option nat :=
  match sh with
  | [] => None
  | f :: sh' => if p f then Some 0%nat else S <$> indexWhere p sh'
  end.

(** The field a member key is stored in: the field with exactly that key if
    there is one, else the first field whose key matches up to case. *)
Definition findField (sh : Shape) (key : string) : option nat :=
  match indexWhere (fun f => String.eqb (fieldKey f) key) sh with
  | Some i => Some i
  | None => indexWhere (fun f => String.eqb (foldName (fieldKey f)) (foldName key)) sh
  end.

(** Decoding one JSON value into a field of type [t] holding [old]:
    [null] leaves the field as it is, a value of another kind is an
    [UnmarshalTypeError]. *)
Definition decodeField (t : GoType) (old : GoVal) (v : json) : Result GoVal :=
  match v, t with
  | JNull, _ => Ok old
  | JString s, TString => Ok (VString s)
  | JBool b, TBool => Ok (VBool b)
  | JInt z, TInt64 =>
      if inInt64 z then Ok (VInt64 z)
      else Err "json: cannot unmarshal number into Go struct field of type int64"
  | _, _ => Err "json: cannot unmarshal value into Go struct field"
  end.

(** The members of an object are decoded in document order; members with no
    field are skipped, a later member overwrites an earlier one.  The first
    type error is the error of the whole call. *)
Fixpoint decodeMembers (sh : Shape) (ms : list (string * json)) (s : Struct)
  : Result Struct :=
  match ms with
  | [] => Ok s
  | (k, v) :: ms' =>
      match findField sh k with
      | None => decodeMembers sh ms' s
      | Some i =>
          match sh !! i, s !! i with
          | Some f, Some old =>
              match decodeField (fieldType f) old v with
              | Ok x => decodeMembers sh ms' (<[i := x]> s)
              | Err e => Err e
              end
          | _, _ => decodeMembers sh ms' s
          end
      end
  end.

(** [json.Unmarshal(body, &v)] for [v] a zero struct of shape [sh]. *)
Definition json_Unmarshal (sh : Shape) (body : bytes) : Result Struct :=
  match body with
  | NotJSON _ => Err "invalid character looking for beginning of value"
  | JSONText JNull => Ok (zeroStruct sh)
  | JSONText (JObject ms) => decodeMembers sh ms (zeroStruct sh)
  | JSONText _ => Err "json: cannot unmarshal value into Go value of struct type"
  end.

Definition encodeVal (v : GoVal) : json :=
  match v with
  | VString s => JString s
  | VBool b => JBool b
  | VInt64 z => JInt z
  end.

Definition encodeStruct (sh : Shape) (s : Struct) : json :=
  JObject (zip (fieldKey <$> sh) (encodeVal <$> s)).

(** [json.Marshal(v)] for [v] a struct of shape [sh]: one member per field,
    in declaration order.  Scalar fields always encode. *)
Definition json_Marshal (sh : Shape) (s : Struct) : Result json :=
  Ok (encodeStruct sh s).

(** The semantic reading of a JSON text. *)
Definition decode (b : bytes) : option json :=
  match b with
  | NotJSON _ => None
  | JSONText v => Some v
  end.

(** ** Requests, queries and effects *)

(** The part of [*http.Request] the handlers read: the URL query
    ([url.Values], a map from key to the values given for it), the route
    parameters of chi and the headers ([http.Header], keyed as the handlers
    write the keys). *)
Record Request : Type := {
  URLQuery : gmap string (list string);
  URLParams : gmap string string;
  Header : gmap string (list string)
}.

(** [url.Values.Get] and [http.Header.Get]: the first value of the key, the
    empty string when there is none. *)
Definition Values_Get (v : gmap string (list string)) (key : string) : string :=
  match v !! key with
  | Some (x :: _) => x
  | _ => ""
  end.

(** [http.Header.Add]: append to the values of the key. *)
Definition Header_Add (h : gmap string (list string)) (key value : string)
  : gmap string (list string) :=
  <[key := default [] (h !! key) ++ [value]]> h.

(** [chi.URLParam]. *)
Definition chi_URLParam (r : Request) (key : string) : string :=
  default "" (URLParams r !! key).

(** Modelled from the spec: the declaration of [structs.Query], which is not
    in payloads.go.  payloads.go reads [Page], [PageSize], [SortBy] and
    [SortDir] and assigns [SortBy]; the dates and the filters are the
    remaining fields of the spec's QueryDescriptor, dates as received. *)
Record Query : Type := {
  Page : Z;
  PageSize : Z;
  SortBy : string;
  SortDir : string;
  StartDate : string;
  EndDate : string;
  Filters : gmap string string
}.

(** [q.SortBy = v]. *)
Definition setSortBy (v : string) (q : Query) : Query :=
  {| Page := Page q; PageSize := PageSize q; SortBy := v; SortDir := SortDir q;
     StartDate := StartDate q; EndDate := EndDate q; Filters := Filters q |}.

(** The request built by [http.NewRequest]. *)
Record OutRequest : Type := {
  Method : string;
  URL : string;
  OutHeader : gmap string (list string)
}.

(** [*http.Response]: the status code, and what [ioutil.ReadAll] makes of the
    body. *)
Record HttpResponse : Type := {
  StatusCode : Z;
  Body : Result bytes
}.

(** What a handler does that can be seen from outside, in order. *)
Inductive Event : Type :=
| IncRequests
| ObserveDBTime (d : Z)
| LogError (e : error)
| LogInfof (reqID identity : string) (body : bytes)
| CallRetrievePayloads (page pageSize : Z) (q : Query)
| CallRetrieveRequestIdPayloads (reqID sortBy sortDir verb : string)
| NewRequest (method url : string)
| ClientDo (req : OutRequest)
| WriteResponse (status : Z) (body : bytes).

Definition StatusOK : Z := 200.
Definition StatusBadRequest : Z := 400.
Definition StatusUnauthorized : Z := 401.
Definition StatusNotFound : Z := 404.
Definition StatusInternalServerError : Z := 500.

(** The responses written, oldest first. *)
Definition responses (tr : list Event) : list (Z * bytes) :=
  omap (fun e => match e with WriteResponse s b => Some (s, b) | _ => None end) tr.

(** The calls into the data layer. *)
Definition storageCalls (tr : list Event) : list Event :=
  omap (fun e => match e with
                 | CallRetrievePayloads _ _ _
                 | CallRetrieveRequestIdPayloads _ _ _ _ => Some e
                 | _ => None
                 end) tr.

(** The requests constructed for, and sent to, the storage broker. *)
Definition brokerCalls (tr : list Event) : list Event :=
  omap (fun e => match e with
                 | NewRequest _ _ | ClientDo _ => Some e
                 | _ => None
                 end) tr.

(** ** Strings *)

(** [strings.Join]. *)
Fixpoint strings_Join (elems : list string) (sep : string) : string :=
  match elems with
  | [] => ""
  | [a] => a
  | a :: rest => a +:+ sep +:+ strings_Join rest sep
  end.

Fixpoint hasPrefix (s p : string) {struct p} : bool :=
  match p, s with
  | EmptyString, _ => true
  | String a p', String b s' => Ascii.eqb a b && hasPrefix s' p'
  | String _ _, EmptyString => false
  end.

(** [strings.Contains]. *)
Fixpoint strings_Contains (s substr : string) : bool :=
  hasPrefix s substr ||
  match s with
  | EmptyString => false
  | String _ s' => strings_Contains s' substr
  end.

(** Modelled from the spec: [stringInSlice], a helper of package endpoints
    that is not in payloads.go; the spec calls it a slice membership check
    (section 9). *)
Definition stringInSlice (a : string) (l : list string) : bool :=
  existsb (String.eqb a) l.

(** [fmt.Sprintf("%v", err)]: the message of the error. *)
Definition Sprintf_v (err : error) : string := err.

(** ** The environment of payloads.go *)

(** What payloads.go uses and does not define.  The helpers of package
    endpoints and the whitelists are taken as they are called; the
    collaborators answer as functions of their arguments. *)
Record Env : Type := {
  (** element types of the data layer *)
  Payload : Type;
  IDPayload : Type;
  Durations : Type;
  (** the declaration of [structs.PayloadArchiveLink] *)
  archiveLinkShape : Shape;
  (** package endpoints: [initQuery], the whitelists, [validTimestamps],
      [getErrorBody], [identityHasRole]; the last is handed the response
      writer too, and by section 4.5 of the specification has no side
      effect: it is a function of the request and the role *)
  initQuery : Request → Result Query;
  validAllSortBy : list string;
  validIDSortBy : list string;
  validSortDir : list string;
  validTimestamps : Query → bool → bool;
  getErrorBody : string → Z → bytes;
  identityHasRole : Request → string → bool;
  (** package db_methods *)
  RetrievePayloads : Z → Z → Query → Z * slice Payload;
  RetrieveRequestIdPayloads : string → string → string → string → slice IDPayload;
  CalculateDurations : slice IDPayload → Durations;
  (** encoding/json on the records of the data layer *)
  marshalPayload : Payload → Result json;
  marshalPayloadRetrievebyID : slice IDPayload → Durations → Result json;
  (** [config.Get().StorageBrokerURL], the URL parser behind
      [http.NewRequest], [http.DefaultClient.Do], and the readings of the
      clock in the order they are taken *)
  StorageBrokerURL : string;
  parseURLError : string → option error;
  clientDo : OutRequest → Result HttpResponse;
  clock : nat → Z
}.

(** ** The handler monad *)

(** What outlives a request: the package variable [verbosity] and the number
    of clock readings taken so far. *)
Record World : Type := {
  verbosity : string;
  ticks : nat
}.

(** [var verbosity string = "0"]. *)
Definition initWorld : World := {| verbosity := "0"; ticks := 0 |}.

(** A statement either falls through to the next one or returns from the
    handler. *)
Inductive Flow (A : Type) : Type :=
| Next (a : A)
| Return.
Arguments Next {A} a.
Arguments Return {A}.

Definition Handler (A : Type) : Type := World → Flow A * World * list Event.

#[export] Instance Handler_ret : MRet Handler :=
  λ A a w, (Next a, w, []).

#[export] Instance Handler_bind : MBind Handler :=
  λ A B k m w,
    match m w with
    | (Next a, w', tr) => let '(f, w'', tr') := k a w' in (f, w'', tr ++ tr')
    | (Return, w', tr) => (Return, w', tr)
    end.

Definition effects {A : Type} (out : Flow A * World * list Event) : list Event :=
  out.2.

Definition worldAfter {A : Type} (out : Flow A * World * list Event) : World :=
  out.1.2.

Definition emit (e : Event) : Handler unit :=
  λ w, (Next (), w, [e]).

(** [return]. *)
Definition return_ {A : Type} : Handler A :=
  λ w, (Return, w, []).

(** [if c { body; return }]. *)
Definition returnIf (c : bool) (body : Handler unit) : Handler unit :=
  if c then body ;; return_ else mret ().

(** [if err != nil { onErr; return }] after a call that gave [res]. *)
Definition ifErr {A : Type} (res : Result A) (onErr : error → Handler unit)
  : Handler A :=
  match res with
  | Ok a => mret a
  | Err e => onErr e ;; return_
  end.

Definition getVerbosity : Handler string :=
  λ w, (Next (verbosity w), w, []).

Definition setVerbosity (v : string) : Handler unit :=
  λ w, (Next (), {| verbosity := v; ticks := ticks w |}, []).

(** Modelled from the spec: [writeResponse], a helper of package endpoints
    that is not in payloads.go; it writes the status line and the body of the
    response (section 6). *)
Definition writeResponse (status : Z) (body : bytes) : Handler unit :=
  emit (WriteResponse status body).

Definition incRequests : Handler unit := emit IncRequests.
Definition observeDBTime (d : Z) : Handler unit := emit (ObserveDBTime d).
Definition Log_Error (err : error) : Handler unit := emit (LogError err).
Definition Log_Infof (reqID identity : string) (body : bytes) : Handler unit :=
  emit (LogInfof reqID identity body).

(** [structs.PayloadsData{count, duration, payloads}]: the literal gives the
    fields in declaration order. *)
Record PayloadsData (P : Type) : Type := {
  Count : Z;
  Duration : float64;
  Data : slice P
}.
Arguments Build_PayloadsData {P} _ _ _.
Arguments Count {P} _.
Arguments Duration {P} _.
Arguments Data {P} _.

(** Encoding a Go slice: [null] for the nil slice, else the array of the
    encoded elements; the first element that does not encode fails the
    call. *)
Fixpoint marshalList {P : Type} (enc : P → Result json) (l : list P)
  : Result (list json) :=
  match l with
  | [] => Ok []
  | p :: l' =>
      match enc p with
      | Err e => Err e
      | Ok v =>
          match marshalList enc l' with
          | Err e => Err e
          | Ok vs => Ok (v :: vs)
          end
      end
  end.

Definition marshalSlice {P : Type} (enc : P → Result json) (s : slice P)
  : Result json :=
  match s with
  | None => Ok JNull
  | Some l =>
      match marshalList enc l with
      | Err e => Err e
      | Ok vs => Ok (JArray vs)
      end
  end.

(** Modelled from the spec: the JSON keys of [structs.PayloadsData], whose
    declaration is not in payloads.go: count, duration, data (section 8). *)
Definition marshalPayloadsData {P : Type} (enc : P → Result json)
  (d : PayloadsData P) : Result json :=
  match marshalSlice enc (Data d) with
  | Err e => Err e
  | Ok records =>
      Ok (JObject [("count", JInt (Count d));
                   ("duration", JFloat (Duration d));
                   ("data", records)])
  end.

Section Handlers.
Context (E : Env).

(** [time.Now()]. *)
Definition time_Now : Handler Z :=
  λ w, (Next (clock E (ticks w)),
        {| verbosity := verbosity w; ticks := S (ticks w) |}, []).

(** [time.Since(start)]. *)
Definition time_Since (start : Z) : Handler Z :=
  now ← time_Now; mret (now - start).

Definition call_RetrievePayloads (page pageSize : Z) (q : Query)
  : Handler (Z * slice (Payload E)) :=
  emit (CallRetrievePayloads page pageSize q) ;;
  mret (RetrievePayloads E page pageSize q).

Definition call_RetrieveRequestIdPayloads (reqID sortBy sortDir verb : string)
  : Handler (slice (IDPayload E)) :=
  emit (CallRetrieveRequestIdPayloads reqID sortBy sortDir verb) ;;
  mret (RetrieveRequestIdPayloads E reqID sortBy sortDir verb).

(** [http.NewRequest(method, url, nil)]: fails when the URL does not
    parse. *)
Definition http_NewRequest (method url : string) : Handler (Result OutRequest) :=
  emit (NewRequest method url) ;;
  mret (match parseURLError E url with
        | Some e => Err e
        | None => Ok {| Method := method; URL := url; OutHeader := ∅ |}
        end).

(** [req.Header.Add(key, value)]. *)
Definition req_Header_Add (req : OutRequest) (key value : string) : OutRequest :=
  {| Method := Method req; URL := URL req;
     OutHeader := Header_Add (OutHeader req) key value |}.

(** [http.DefaultClient.Do(req)]. *)
Definition http_Do (req : OutRequest) : Handler (Result HttpResponse) :=
  emit (ClientDo req) ;;
  mret (clientDo E req).

(** Payloads returns responses for the /payloads endpoint. *)
Definition Payloads (r : Request) : Handler unit :=
  start ← time_Now;
  let sortBy := Values_Get (URLQuery r) "sort_by" in
  incRequests ;;
  q ← ifErr (initQuery E r) (λ err,
        writeResponse StatusBadRequest
          (getErrorBody E (Sprintf_v err) StatusBadRequest));
  let q := if String.eqb sortBy "" then setSortBy "created_at" q else q in
  returnIf (negb (stringInSlice (SortBy q) (validAllSortBy E)))
    (let message := "sort_by must be one of "
                    +:+ strings_Join (validAllSortBy E) ", " in
     writeResponse StatusBadRequest (getErrorBody E message StatusBadRequest)) ;;
  returnIf (negb (stringInSlice (SortDir q) (validSortDir E)))
    (let message := "sort_dir must be one of "
                    +:+ strings_Join (validSortDir E) ", " in
     writeResponse StatusBadRequest (getErrorBody E message StatusBadRequest)) ;;
  returnIf (negb (validTimestamps E q false))
    (let message := "invalid timestamp format provided" in
     writeResponse StatusBadRequest (getErrorBody E message StatusBadRequest)) ;;
  '(count, payloads) ← call_RetrievePayloads (Page q) (PageSize q) q;
  d ← time_Since start;
  let duration := Seconds d in
  d' ← time_Since start;
  observeDBTime d' ;;
  let payloadsData := Build_PayloadsData count duration payloads in
  dataJson ← ifErr (marshalPayloadsData (marshalPayload E) payloadsData) (λ err,
        Log_Error err ;;
        writeResponse StatusInternalServerError
          (getErrorBody E "Internal Server Issue" StatusInternalServerError));
  writeResponse StatusOK (JSONText dataJson).

(** RequestIdPayloads returns a response for /payloads/{request_id}. *)
Definition RequestIdPayloads (r : Request) : Handler unit :=
  let reqID := chi_URLParam r "request_id" in
  setVerbosity (Values_Get (URLQuery r) "verbosity") ;;
  q ← ifErr (initQuery E r) (λ err,
        writeResponse StatusBadRequest
          (getErrorBody E (Sprintf_v err) StatusBadRequest));
  returnIf (negb (stringInSlice (SortBy q) (validIDSortBy E)))
    (let message := "sort_by must be one of "
                    +:+ strings_Join (validIDSortBy E) ", " in
     writeResponse StatusBadRequest (getErrorBody E message StatusBadRequest)) ;;
  returnIf (negb (stringInSlice (SortDir q) (validSortDir E)))
    (let message := "sort_dir must be one of "
                    +:+ strings_Join (validSortDir E) ", " in
     writeResponse StatusBadRequest (getErrorBody E message StatusBadRequest)) ;;
  verb ← getVerbosity;
  payloads ← call_RetrieveRequestIdPayloads reqID (SortBy q) (SortDir q) verb;
  returnIf (noRecords payloads)
    (writeResponse StatusNotFound
       (getErrorBody E ("payload with id: " +:+ reqID +:+ " not found")
          StatusNotFound)) ;;
  let durations := CalculateDurations E payloads in
  dataJson ← ifErr (marshalPayloadRetrievebyID E payloads durations) (λ err,
        Log_Error err ;;
        writeResponse StatusInternalServerError
          (getErrorBody E "Internal Server Issue" StatusInternalServerError));
  writeResponse StatusOK (JSONText dataJson).

(** PayloadArchiveLink returns a response for
    /payloads/{request_id}/archiveLink. *)
Definition PayloadArchiveLink (r : Request) : Handler unit :=
  let reqID := chi_URLParam r "request_id" in
  returnIf (negb (identityHasRole E r "platform-archive-download"))
    (writeResponse StatusUnauthorized
       (getErrorBody E "Unauthorized" StatusUnauthorized)) ;;
  res ← http_NewRequest "GET" (StorageBrokerURL E +:+ "?request_id=" +:+ reqID);
  req ← ifErr res (λ err,
        Log_Error err ;;
        writeResponse StatusInternalServerError
          (getErrorBody E "Error with Request ID" StatusInternalServerError));
  let req := req_Header_Add req "x-rh-identity"
               (Values_Get (Header r) "x-rh-identity") in
  res ← http_Do req;
  response ← ifErr res (λ err,
        Log_Error err ;;
        writeResponse StatusInternalServerError
          (getErrorBody E "Error fetching payload URL from storage-broker"
             StatusInternalServerError));
  body ← ifErr (Body response) (λ err,
        Log_Error err ;;
        writeResponse StatusInternalServerError
          (getErrorBody E "Error reading response" StatusInternalServerError));
  payloadArchiveLink ← ifErr (json_Unmarshal (archiveLinkShape E) body) (λ err,
        Log_Error err ;;
        writeResponse StatusInternalServerError
          (getErrorBody E "Error unmarshaling the response"
             StatusInternalServerError));
  dataJson ← ifErr (json_Marshal (archiveLinkShape E) payloadArchiveLink) (λ err,
        Log_Error err ;;
        writeResponse StatusInternalServerError
          (getErrorBody E "Error converting parsed response to json"
             StatusInternalServerError));
  Log_Infof reqID (Values_Get (Header r) "x-rh-identity") body ;;
  writeResponse StatusOK (JSONText dataJson).

End Handlers.

(** ** Environments that differ in one collaborator *)


Definition setStatusCode (c : Z) (resp : HttpResponse) : HttpResponse :=
  {| StatusCode := c; Body := Body resp |}.

(** [E] with a storage broker that answers every request with the status
    code [code req] and the body it answers with in [E]. *)
Definition withBrokerStatus (code : OutRequest → Z) (E : Env) : Env :=
  {| Payload := Payload E; IDPayload := IDPayload E; Durations := Durations E;
     archiveLinkShape := archiveLinkShape E;
     initQuery := initQuery E;
     validAllSortBy := validAllSortBy E; validIDSortBy := validIDSortBy E;
     validSortDir := validSortDir E;
     validTimestamps := validTimestamps E;
     getErrorBody := getErrorBody E; identityHasRole := identityHasRole E;
     RetrievePayloads := RetrievePayloads E;
     RetrieveRequestIdPayloads := RetrieveRequestIdPayloads E;
     CalculateDurations := CalculateDurations E;
     marshalPayload := marshalPayload E;
     marshalPayloadRetrievebyID := marshalPayloadRetrievebyID E;
     StorageBrokerURL := StorageBrokerURL E; parseURLError := parseURLError E;
     clientDo := λ req,
       match clientDo E req with
       | Ok resp => Ok (setStatusCode (code req) resp)
       | Err e => Err e
       end;
     clock := clock E |}.

(** [E] with another declaration of [structs.PayloadArchiveLink]. *)
Definition withArchiveLinkShape (sh : Shape) (E : Env) : Env :=
  {| Payload := Payload E; IDPayload := IDPayload E; Durations := Durations E;
     archiveLinkShape := sh;
     initQuery := initQuery E;
     validAllSortBy := validAllSortBy E; validIDSortBy := validIDSortBy E;
     validSortDir := validSortDir E;
     validTimestamps := validTimestamps E;
     getErrorBody := getErrorBody E; identityHasRole := identityHasRole E;
     RetrievePayloads := RetrievePayloads E;
     RetrieveRequestIdPayloads := RetrieveRequestIdPayloads E;
     CalculateDurations := CalculateDurations E;
     marshalPayload := marshalPayload E;
     marshalPayloadRetrievebyID := marshalPayloadRetrievebyID E;
     StorageBrokerURL := StorageBrokerURL E; parseURLError := parseURLError E;
     clientDo := clientDo E; clock := clock E |}.

(** ** The query validator of the specification *)

(** Section 4.2 of the specification, in its words: the checks of a
    descriptor in order, the first failure being the one reported.  [None]
    is success.  The timestamp check is run when [timestamps] is set. *)
Definition firstViolation (E : Env) (whitelist : list string)
  (timestamps : bool) (q : Query) : option string :=
  if negb (stringInSlice (SortBy q) whitelist) then
    Some ("sort_by must be one of " +:+ strings_Join whitelist ", ")
  else if negb (stringInSlice (SortDir q) (validSortDir E)) then
    Some ("sort_dir must be one of " +:+ strings_Join (validSortDir E) ", ")
  else if timestamps && negb (validTimestamps E q false) then
    Some "invalid timestamp format provided"
  else None.

(** The descriptor [Payloads] validates: the one of [initQuery], with the
    endpoint's own default for an absent sort_by. *)
Definition payloadsQuery (r : Request) (q : Query) : Query :=
  if String.eqb (Values_Get (URLQuery r) "sort_by") "" then setSortBy "created_at" q
  else q.

(** ** A concrete environment

    Stand-ins for what payloads.go does not define, to run the handlers on
    concrete requests. *)
Module Fixture.

Definition digitOf (c : ascii) : option Z :=
  let n := Z.of_nat (nat_of_ascii c) in
  if (48 <=? n) && (n <=? 57) then Some (n - 48) else None.

Fixpoint parseDigits (acc : Z) (s : string) : option Z :=
  match s with
  | EmptyString => Some acc
  | String c s' =>
      match digitOf c with
      | Some d => parseDigits (10 * acc + d) s'
      | None => None
      end
  end.

(** Decimal numbers without sign. *)
Definition atoi (s : string) : option Z :=
  match s with
  | EmptyString => None
  | _ => parseDigits 0 s
  end.

Definition positiveParam (v : gmap string (list string)) (key : string)
  (dflt : Z) : Result Z :=
  match Values_Get v key with
  | EmptyString => Ok dflt
  | s =>
      match atoi s with
      | Some n => if 0 <? n then Ok n else Err (key +:+ " must be positive")
      | None => Err (key +:+ " must be a number")
      end
  end.

Definition orDefault (s dflt : string) : string :=
  match s with
  | EmptyString => dflt
  | _ => s
  end.

(** Modelled from the spec: [initQuery], the parameter normalizer of
    section 4.1, which is not in payloads.go: page and page size are
    positive integers with defaults, sort field and direction have
    defaults, dates and filters are passed on. *)
Definition initQuery (r : Request) : Result Query :=
  let v := URLQuery r in
  match positiveParam v "page" 1 with
  | Err e => Err e
  | Ok page =>
      match positiveParam v "page_size" 10 with
      | Err e => Err e
      | Ok pageSize =>
          Ok {| Page := page; PageSize := pageSize;
                SortBy := orDefault (Values_Get v "sort_by") "date";
                SortDir := orDefault (Values_Get v "sort_dir") "desc";
                StartDate := Values_Get v "created_at_from";
                EndDate := Values_Get v "created_at_to";
                Filters := ∅ |}
      end
  end.

(** Modelled from the spec: [validTimestamps], which is not in
    payloads.go (section 4.2, check 3): a date that is supplied parses under
    the recognized format, here a decimal count of seconds, and the start
    is not after the end.  The spec does not say what the stricter variant
    adds; both values of the flag run this check. *)
Definition validTimestamps (q : Query) (strict : bool) : bool :=
  let parses s := match s with EmptyString => true | _ => bool_decide (is_Some (atoi s)) end in
  parses (StartDate q) && parses (EndDate q) &&
  match atoi (StartDate q), atoi (EndDate q) with
  | Some s, Some e => s <=? e
  | _, _ => true
  end.

(** Modelled from the spec: [getErrorBody], which is not in payloads.go;
    the error body of section 6, a message and the status code. *)
Definition getErrorBody (message : string) (status : Z) : bytes :=
  JSONText (JObject [("message", JString message); ("status", JInt status)]).

(** Modelled from the spec: [identityHasRole], which is not in payloads.go
    (section 4.5): whether the identity claim of the request holds the
    role, with no side effect.  Here the claim names its one role. *)
Definition identityHasRole (r : Request) (role : string) : bool :=
  String.eqb (Values_Get (Header r) "x-rh-identity") role.

(** A table of 35 payloads, numbered from 1, read by page. *)
Definition RetrievePayloads (page pageSize : Z) (q : Query) : Z * slice Z :=
  (35, Some (take (Z.to_nat pageSize)
               (drop (Z.to_nat ((page - 1) * pageSize)) (seqZ 1 35)))).

(** One tracked payload, with two status records. *)
Definition RetrieveRequestIdPayloads (reqID sortBy sortDir verb : string)
  : slice string :=
  if String.eqb reqID "abc" then Some ["received"; "processed"] else None.

Definition marshalPayload (p : Z) : Result json :=
  Ok (JObject [("id", JInt p)]).

Definition marshalPayloadRetrievebyID (s : slice string) (d : nat) : Result json :=
  match marshalSlice (λ x, Ok (JString x)) s with
  | Err e => Err e
  | Ok v => Ok (JObject [("data", v); ("durations", JInt (Z.of_nat d))])
  end.

Definition StorageBrokerURL : string := "http://storage-broker/archive/url".

Fixpoint hasControlByte (s : string) : bool :=
  match s with
  | EmptyString => false
  | String c s' =>
      let n := nat_of_ascii c in
      Nat.ltb n 32 || Nat.eqb n 127 || hasControlByte s'
  end.

Definition parseURLError (url : string) : option error :=
  if hasControlByte url then Some "net/url: invalid control character in URL"
  else None.

(** The storage broker: a link for payload abc, an array for payload list,
    a link with a lifetime for payload timed, a 404 with an error object
    for any other. *)
Definition clientDo (req : OutRequest) : Result HttpResponse :=
  if String.eqb (URL req) (StorageBrokerURL +:+ "?request_id=abc") then
    Ok {| StatusCode := 200;
          Body := Ok (JSONText (JObject [("url", JString "https://bucket/abc")])) |}
  else if String.eqb (URL req) (StorageBrokerURL +:+ "?request_id=list") then
    Ok {| StatusCode := 200;
          Body := Ok (JSONText (JArray [JString "https://bucket/list"])) |}
  else if String.eqb (URL req) (StorageBrokerURL +:+ "?request_id=timed") then
    Ok {| StatusCode := 200;
          Body := Ok (JSONText (JObject [("url", JString "https://bucket/timed");
                                         ("expires", JInt 60)])) |}
  else
    Ok {| StatusCode := 404;
          Body := Ok (JSONText (JObject [("message", JString "no such payload")])) |}.

Definition request (query : list (string * string)) (reqID identity : string)
  : Request :=
  {| URLQuery := list_to_map ((λ kv, (kv.1, [kv.2])) <$> query);
     URLParams := {["request_id" := reqID]};
     Header := {["x-rh-identity" := [identity]]} |}.

End Fixture.

(** The environment made of the stand-ins. *)
Definition fixture : Env :=
  {| Payload := Z; IDPayload := string; Durations := nat;
     archiveLinkShape := [{| fieldKey := "url"; fieldType := TString |}];
     initQuery := Fixture.initQuery;
     validAllSortBy := ["created_at"; "updated_at"; "account"];
     validIDSortBy := ["created_at"; "date"; "status"];
     validSortDir := ["asc"; "desc"];
     validTimestamps := Fixture.validTimestamps;
     getErrorBody := Fixture.getErrorBody;
     identityHasRole := Fixture.identityHasRole;
     RetrievePayloads := Fixture.RetrievePayloads;
     RetrieveRequestIdPayloads := Fixture.RetrieveRequestIdPayloads;
     CalculateDurations := len;
     marshalPayload := Fixture.marshalPayload;
     marshalPayloadRetrievebyID := Fixture.marshalPayloadRetrievebyID;
     StorageBrokerURL := Fixture.StorageBrokerURL;
     parseURLError := Fixture.parseURLError;
     clientDo := Fixture.clientDo;
     clock := λ n, 1000 + 250 * Z.of_nat n |}.

(** ** The endpoints *)

(** The two endpoints that take a query, as section 6 of the specification
    routes them. *)
Inductive Endpoint : Type :=
| AllPayloads
| ByRequestId.

Definition serve (E : Env) (ep : Endpoint) : Request → Handler unit :=
  match ep with
  | AllPayloads => Payloads E
  | ByRequestId => RequestIdPayloads E
  end.

(** The sort_by whitelist the handler of the endpoint consults. *)
Definition whitelist (E : Env) (ep : Endpoint) : list string :=
  match ep with
  | AllPayloads => validAllSortBy E
  | ByRequestId => validIDSortBy E
  end.

(** The descriptor the handler of the endpoint validates. *)
Definition descriptor (ep : Endpoint) (r : Request) (q : Query) : Query :=
  match ep with
  | AllPayloads => payloadsQuery r q
  | ByRequestId => q
  end.

(** Whether the handler of the endpoint calls [validTimestamps]. *)
Definition checksTimestamps (ep : Endpoint) : bool :=
  match ep with
  | AllPayloads => true
  | ByRequestId => false
  end.

(** The world after one more reading of the clock. *)
Definition tick (w : World) : World :=
  {| verbosity := verbosity w; ticks := S (ticks w) |}.

(** The world after [verbosity = r.URL.Query().Get("verbosity")]. *)
Definition noteVerbosity (r : Request) (w : World) : World :=
  {| verbosity := Values_Get (URLQuery r) "verbosity"; ticks := ticks w |}.

(** The URL [PayloadArchiveLink] asks the storage broker for. *)
Definition archiveURL (E : Env) (r : Request) : string :=
  StorageBrokerURL E +:+ "?request_id=" +:+ chi_URLParam r "request_id".

(** The request [PayloadArchiveLink] sends when the URL parses. *)
Definition archiveRequest (E : Env) (r : Request) : OutRequest :=
  {| Method := "GET"; URL := archiveURL E r;
     OutHeader := Header_Add ∅ "x-rh-identity"
                    (Values_Get (Header r) "x-rh-identity") |}.

(** Well-typed struct values: one value per field, of the field's type. *)
Definition hasType (f : Field) (v : GoVal) : Prop :=
  match fieldType f, v with
  | TString, VString _ => True
  | TBool, VBool _ => True
  | TInt64, VInt64 z => inInt64 z = true
  | _, _ => False
  end.

(** Requests handled one after the other: each handler starts in the world
    the one before it left. *)
Fixpoint serveAll (E : Env) (reqs : list (Endpoint * Request)) (w : World)
  : World :=
  match reqs with
  | [] => w
  | (ep, r) :: rest => serveAll E rest (worldAfter (serve E ep r w))
  end.

(** The verbosity parameter of the last /payloads/{request_id} request of
    [reqs], [v] when there is none. *)
Fixpoint lastVerbosity (reqs : list (Endpoint * Request)) (v : string) : string :=
  match reqs with
  | [] => v
  | (AllPayloads, _) :: rest => lastVerbosity rest v
  | (ByRequestId, r) :: rest =>
      lastVerbosity rest (Values_Get (URLQuery r) "verbosity")
  end.

(** ** More views of a run *)

(** The metrics recorded. *)
Definition metrics (tr : list Event) : list Event :=
  omap (fun e => match e with
                 | IncRequests | ObserveDBTime _ => Some e
                 | _ => None
                 end) tr.

(** The errors handed to [l.Log.Error]. *)
Definition errorLogs (tr : list Event) : list error :=
  omap (fun e => match e with LogError err => Some err | _ => None end) tr.

(** The lines written by [l.Log.Infof]. *)
Definition auditLines (tr : list Event) : list Event :=
  omap (fun e => match e with LogInfof _ _ _ => Some e | _ => None end) tr.

(** [E] with another HTTP client. *)
Definition withClientDo (client : OutRequest → Result HttpResponse) (E : Env)
  : Env :=
  {| Payload := Payload E; IDPayload := IDPayload E; Durations := Durations E;
     archiveLinkShape := archiveLinkShape E;
     initQuery := initQuery E;
     validAllSortBy := validAllSortBy E; validIDSortBy := validIDSortBy E;
     validSortDir := validSortDir E;
     validTimestamps := validTimestamps E;
     getErrorBody := getErrorBody E; identityHasRole := identityHasRole E;
     RetrievePayloads := RetrievePayloads E;
     RetrieveRequestIdPayloads := RetrieveRequestIdPayloads E;
     CalculateDurations := CalculateDurations E;
     marshalPayload := marshalPayload E;
     marshalPayloadRetrievebyID := marshalPayloadRetrievebyID E;
     StorageBrokerURL := StorageBrokerURL E; parseURLError := parseURLError E;
     clientDo := client; clock := clock E |}.

(** [E] with another encoder of the records of /payloads. *)
Definition withMarshalPayload (E : Env) (enc : Payload E → Result json) : Env :=
  {| Payload := Payload E; IDPayload := IDPayload E; Durations := Durations E;
     archiveLinkShape := archiveLinkShape E;
     initQuery := initQuery E;
     validAllSortBy := validAllSortBy E; validIDSortBy := validIDSortBy E;
     validSortDir := validSortDir E;
     validTimestamps := validTimestamps E;
     getErrorBody := getErrorBody E; identityHasRole := identityHasRole E;
     RetrievePayloads := RetrievePayloads E;
     RetrieveRequestIdPayloads := RetrieveRequestIdPayloads E;
     CalculateDurations := CalculateDurations E;
     marshalPayload := enc;
     marshalPayloadRetrievebyID := marshalPayloadRetrievebyID E;
     StorageBrokerURL := StorageBrokerURL E; parseURLError := parseURLError E;
     clientDo := clientDo E; clock := clock E |}.


(** * Properties *)

(** ** The monad: running a handler *)

Ltac run_handler :=
  unfold mbind, mret, Handler_bind, Handler_ret, returnIf, ifErr, return_,
    writeResponse, incRequests, observeDBTime, Log_Error, Log_Infof, emit,
    time_Since, time_Now, getVerbosity, setVerbosity, call_RetrievePayloads,
    call_RetrieveRequestIdPayloads, http_NewRequest, http_Do,
    mbind, mret, Handler_bind, Handler_ret, emit;
  cbn [fst snd app].

Section Paths.
Context (E : Env) (r : Request) (w : World).

Lemma Payloads_malformed (e : error) :
  initQuery E r = Err e →
  Payloads E r w =
    (Return, tick w,
     [IncRequests;
      WriteResponse StatusBadRequest (getErrorBody E e StatusBadRequest)]).
Proof.
  intros H. unfold Payloads. run_handler. rewrite H. reflexivity.
Qed.

Lemma Payloads_rejected (q : Query) (msg : string) :
  initQuery E r = Ok q →
  firstViolation E (validAllSortBy E) true (payloadsQuery r q) = Some msg →
  Payloads E r w =
    (Return, tick w,
     [IncRequests;
      WriteResponse StatusBadRequest (getErrorBody E msg StatusBadRequest)]).
Proof.
  intros H V. unfold Payloads. run_handler. rewrite H.
  unfold firstViolation, payloadsQuery in V. cbn [fst snd app].
  destruct (negb (stringInSlice _ (validAllSortBy E))).
  { injection V as <-. reflexivity. }
  destruct (negb (stringInSlice _ (validSortDir E))).
  { injection V as <-. reflexivity. }
  destruct (negb (validTimestamps E _ false)); [|discriminate].
  injection V as <-. reflexivity.
Qed.


Lemma Payloads_accepted (q : Query) :
  initQuery E r = Ok q →
  firstViolation E (validAllSortBy E) true (payloadsQuery r q) = None →
  let q' := payloadsQuery r q in
  let found := RetrievePayloads E (Page q') (PageSize q') q' in
  let start := clock E (ticks w) in
  let d := clock E (S (ticks w)) - start in
  let d' := clock E (S (S (ticks w))) - start in
  Payloads E r w =
    match marshalPayloadsData (marshalPayload E)
            (Build_PayloadsData found.1 (Seconds d) found.2) with
    | Ok v =>
        (Next (), tick (tick (tick w)),
         [IncRequests; CallRetrievePayloads (Page q') (PageSize q') q';
          ObserveDBTime d'; WriteResponse StatusOK (JSONText v)])
    | Err e =>
        (Return, tick (tick (tick w)),
         [IncRequests; CallRetrievePayloads (Page q') (PageSize q') q';
          ObserveDBTime d'; LogError e;
          WriteResponse StatusInternalServerError
            (getErrorBody E "Internal Server Issue" StatusInternalServerError)])
    end.
Proof.
  intros H V. unfold Payloads. run_handler. rewrite H.
  unfold firstViolation, payloadsQuery in V. unfold payloadsQuery.
  cbn [fst snd app].
  destruct (negb (stringInSlice _ (validAllSortBy E))); [discriminate|].
  destruct (negb (stringInSlice _ (validSortDir E))); [discriminate|].
  destruct (negb (validTimestamps E _ false)); [discriminate|].
  cbn [fst snd app].
  destruct (RetrievePayloads E _ _ _) as [count payloads]. cbn [fst snd app].
  destruct (marshalPayloadsData _ _); reflexivity.
Qed.

Lemma RequestIdPayloads_malformed (e : error) :
  initQuery E r = Err e →
  RequestIdPayloads E r w =
    (Return, noteVerbosity r w,
     [WriteResponse StatusBadRequest (getErrorBody E e StatusBadRequest)]).
Proof.
  intros H. unfold RequestIdPayloads. run_handler. rewrite H. reflexivity.
Qed.

Lemma RequestIdPayloads_rejected (q : Query) (msg : string) :
  initQuery E r = Ok q →
  firstViolation E (validIDSortBy E) false q = Some msg →
  RequestIdPayloads E r w =
    (Return, noteVerbosity r w,
     [WriteResponse StatusBadRequest (getErrorBody E msg StatusBadRequest)]).
Proof.
  intros H V. unfold RequestIdPayloads. run_handler. rewrite H.
  unfold firstViolation in V. cbn [fst snd app].
  destruct (negb (stringInSlice _ (validIDSortBy E))).
  { injection V as <-. reflexivity. }
  destruct (negb (stringInSlice _ (validSortDir E))); [|discriminate].
  injection V as <-. reflexivity.
Qed.

Lemma RequestIdPayloads_accepted (q : Query) :
  initQuery E r = Ok q →
  firstViolation E (validIDSortBy E) false q = None →
  let reqID := chi_URLParam r "request_id" in
  let verb := Values_Get (URLQuery r) "verbosity" in
  let payloads := RetrieveRequestIdPayloads E reqID (SortBy q) (SortDir q) verb in
  let call := CallRetrieveRequestIdPayloads reqID (SortBy q) (SortDir q) verb in
  RequestIdPayloads E r w =
    if noRecords payloads then
      (Return, noteVerbosity r w,
       [call;
        WriteResponse StatusNotFound
          (getErrorBody E ("payload with id: " +:+ reqID +:+ " not found")
             StatusNotFound)])
    else
      match marshalPayloadRetrievebyID E payloads
              (CalculateDurations E payloads) with
      | Ok v =>
          (Next (), noteVerbosity r w,
           [call; WriteResponse StatusOK (JSONText v)])
      | Err e =>
          (Return, noteVerbosity r w,
           [call; LogError e;
            WriteResponse StatusInternalServerError
              (getErrorBody E "Internal Server Issue"
                 StatusInternalServerError)])
      end.
Proof.
  intros H V. unfold RequestIdPayloads. run_handler. rewrite H.
  unfold firstViolation in V. cbn [fst snd app].
  destruct (negb (stringInSlice _ (validIDSortBy E))); [discriminate|].
  destruct (negb (stringInSlice _ (validSortDir E))); [discriminate|].
  cbn [fst snd app verbosity].
  destruct (noRecords _); [reflexivity|]. cbn [fst snd app].
  destruct (marshalPayloadRetrievebyID E _ _); reflexivity.
Qed.

Lemma PayloadArchiveLink_unauthorized :
  identityHasRole E r "platform-archive-download" = false →
  PayloadArchiveLink E r w =
    (Return, w,
     [WriteResponse StatusUnauthorized
        (getErrorBody E "Unauthorized" StatusUnauthorized)]).
Proof.
  intros H. unfold PayloadArchiveLink. run_handler. rewrite H. reflexivity.
Qed.

Lemma PayloadArchiveLink_unbuilt (e : error) :
  identityHasRole E r "platform-archive-download" = true →
  parseURLError E (archiveURL E r) = Some e →
  PayloadArchiveLink E r w =
    (Return, w,
     [NewRequest "GET" (archiveURL E r); LogError e;
      WriteResponse StatusInternalServerError
        (getErrorBody E "Error with Request ID" StatusInternalServerError)]).
Proof.
  intros H U. unfold PayloadArchiveLink, archiveURL in *. run_handler.
  rewrite H, U. reflexivity.
Qed.

(** The run of an authorized request whose URL parses, by what the storage
    broker answers. *)
Lemma PayloadArchiveLink_sent :
  identityHasRole E r "platform-archive-download" = true →
  parseURLError E (archiveURL E r) = None →
  let sent := [NewRequest "GET" (archiveURL E r); ClientDo (archiveRequest E r)] in
  let fail e message :=
    (Return, w,
     sent ++ [LogError e;
              WriteResponse StatusInternalServerError
                (getErrorBody E message StatusInternalServerError)]) in
  PayloadArchiveLink E r w =
    match clientDo E (archiveRequest E r) with
    | Err e => fail e "Error fetching payload URL from storage-broker"
    | Ok response =>
        match Body response with
        | Err e => fail e "Error reading response"
        | Ok body =>
            match json_Unmarshal (archiveLinkShape E) body with
            | Err e => fail e "Error unmarshaling the response"
            | Ok link =>
                (Next (), w,
                 sent ++ [LogInfof (chi_URLParam r "request_id")
                            (Values_Get (Header r) "x-rh-identity") body;
                          WriteResponse StatusOK
                            (JSONText (encodeStruct (archiveLinkShape E) link))])
            end
        end
    end.
Proof.
  intros H U. unfold PayloadArchiveLink, archiveRequest, archiveURL in *.
  run_handler. rewrite H, U. cbn [fst snd app negb].
  unfold req_Header_Add. cbn [Method URL OutHeader].
  destruct (clientDo E _) as [response|e]; [|reflexivity].
  cbn [fst snd app].
  destruct (Body response) as [body|e]; [|reflexivity].
  cbn [fst snd app].
  destruct (json_Unmarshal _ body) as [link|e]; reflexivity.
Qed.

End Paths.

(** ** Strings and whitelists *)

Lemma stringInSlice_elem (a : string) (l : list string) :
  stringInSlice a l = true ↔ a ∈ l.
Proof.
  unfold stringInSlice. rewrite existsb_exists. split.
  - intros (x & Hin & Heq). apply String.eqb_eq in Heq. subst x.
    by apply list_elem_of_In.
  - intros Hin. exists a. split; [by apply list_elem_of_In|].
    apply String.eqb_refl.
Qed.

Lemma stringInSlice_absent (a : string) (l : list string) :
  a ∉ l → negb (stringInSlice a l) = true.
Proof.
  intros Hnot. destruct (stringInSlice a l) eqn:Hin; [|reflexivity].
  apply stringInSlice_elem in Hin. contradiction.
Qed.

Lemma stringInSlice_false (a : string) (l : list string) :
  stringInSlice a l = false → a ∉ l.
Proof.
  intros Hout Hin. apply stringInSlice_elem in Hin. congruence.
Qed.

Lemma string_app_cons (x : ascii) (a b : string) :
  String x a +:+ b = String x (a +:+ b).
Proof. reflexivity. Qed.

Lemma string_app_assoc (a b c : string) : (a +:+ b) +:+ c = a +:+ b +:+ c.
Proof.
  induction a as [|x a IH]; [reflexivity|].
  by rewrite !string_app_cons, IH.
Qed.

Lemma string_app_empty_r (a : string) : a +:+ "" = a.
Proof.
  induction a as [|x a IH]; [reflexivity|].
  by rewrite string_app_cons, IH.
Qed.

Lemma hasPrefix_app (p s : string) : hasPrefix (p +:+ s) p = true.
Proof.
  induction p as [|a p IH]; [reflexivity|].
  rewrite string_app_cons. simpl. rewrite IH, Ascii.eqb_refl. reflexivity.
Qed.

Lemma strings_Contains_unfold (s substr : string) :
  strings_Contains s substr =
    hasPrefix s substr ||
    match s with
    | EmptyString => false
    | String _ s' => strings_Contains s' substr
    end.
Proof. destruct s; reflexivity. Qed.

Lemma strings_Contains_app (pre substr post : string) :
  strings_Contains (pre +:+ substr +:+ post) substr = true.
Proof.
  induction pre as [|a pre IH].
  - change ("" +:+ substr +:+ post) with (substr +:+ post).
    rewrite strings_Contains_unfold, hasPrefix_app. reflexivity.
  - rewrite string_app_cons, strings_Contains_unfold, IH. apply orb_true_r.
Qed.

Lemma strings_Join_elem (l : list string) (sep s : string) :
  s ∈ l → ∃ pre post, strings_Join l sep = pre +:+ s +:+ post.
Proof.
  induction l as [|a rest IH]; intros Hin.
  - by apply not_elem_of_nil in Hin.
  - apply elem_of_cons in Hin as [->|Hin].
    + destruct rest as [|b rest].
      * exists "", "". change ("" +:+ a +:+ "") with (a +:+ "").
        by rewrite string_app_empty_r.
      * exists "", (sep +:+ strings_Join (b :: rest) sep). reflexivity.
    + destruct rest as [|b rest]; [by apply not_elem_of_nil in Hin|].
      destruct (IH Hin) as (pre & post & Heq).
      exists (a +:+ sep +:+ pre), post.
      change (strings_Join (a :: b :: rest) sep)
        with (a +:+ sep +:+ strings_Join (b :: rest) sep).
      rewrite Heq, !string_app_assoc. reflexivity.
Qed.

(** A message that ends in the joined whitelist names every member. *)
Lemma joined_names_member (head sep s : string) (l : list string) :
  s ∈ l → strings_Contains (head +:+ strings_Join l sep) s = true.
Proof.
  intros Hin. destruct (strings_Join_elem l sep s Hin) as (pre & post & ->).
  rewrite <- string_app_assoc. apply strings_Contains_app.
Qed.

(** ** Decoding into a struct and encoding it again *)

Lemma zeroStruct_typed (sh : Shape) : Forall2 hasType sh (zeroStruct sh).
Proof.
  induction sh as [|f sh IH]; constructor; [|exact IH].
  unfold hasType. destruct (fieldType f); reflexivity.
Qed.

Lemma decodeField_typed (f : Field) (old x : GoVal) (v : json) :
  hasType f old → decodeField (fieldType f) old v = Ok x → hasType f x.
Proof.
  unfold hasType, decodeField. intros Hold Hdec.
  destruct v, (fieldType f); try discriminate;
    try (injection Hdec as <-; exact Hold || exact I).
  destruct (inInt64 z) eqn:Hz; [|discriminate].
  injection Hdec as <-. exact Hz.
Qed.

Lemma decodeMembers_typed (sh : Shape) (ms : list (string * json)) :
  ∀ s s' : Struct,
    Forall2 hasType sh s → decodeMembers sh ms s = Ok s' → Forall2 hasType sh s'.
Proof.
  induction ms as [|[k v] ms IH]; intros s s' Hs Hdec; simpl in Hdec.
  - by injection Hdec as <-.
  - destruct (findField sh k) as [i|]; [|by eapply IH].
    destruct (sh !! i) as [f|] eqn:Hf; [|by eapply IH].
    destruct (s !! i) as [old|] eqn:Hold; [|by eapply IH].
    destruct (decodeField (fieldType f) old v) as [x|e] eqn:Hx; [|discriminate].
    eapply IH; [|exact Hdec].
    rewrite <- (list_insert_id sh i f Hf).
    apply Forall2_insert; [exact Hs|].
    eapply decodeField_typed; [|exact Hx].
    eapply Forall2_lookup_lr; eauto.
Qed.

(** What decodes into the struct is a value of the struct. *)
Lemma json_Unmarshal_typed (sh : Shape) (body : bytes) (s : Struct) :
  json_Unmarshal sh body = Ok s → Forall2 hasType sh s.
Proof.
  unfold json_Unmarshal. intros H.
  destruct body as [raw|v]; [discriminate|].
  destruct v; try discriminate.
  - injection H as <-. apply zeroStruct_typed.
  - eapply decodeMembers_typed; [apply zeroStruct_typed|exact H].
Qed.

Lemma indexWhere_first (p : Field → bool) (sh : Shape) (i : nat) (f : Field) :
  sh !! i = Some f → p f = true →
  (∀ j g, (j < i)%nat → sh !! j = Some g → p g = false) →
  indexWhere p sh = Some i.
Proof.
  revert i. induction sh as [|g sh IH]; intros i Hf Hp Hbefore; [done|].
  destruct i as [|i]; simpl in *.
  - injection Hf as ->. by rewrite Hp.
  - rewrite (Hbefore 0%nat g); [|lia|reflexivity].
    rewrite (IH i Hf Hp); [reflexivity|].
    intros j h Hj Hh. apply (Hbefore (S j) h); [lia|exact Hh].
Qed.

(** With distinct keys, the key of a field finds that field. *)
Lemma findField_own (sh : Shape) (i : nat) (f : Field) :
  NoDup (fieldKey <$> sh) → sh !! i = Some f → findField sh (fieldKey f) = Some i.
Proof.
  intros Hnd Hf. unfold findField.
  rewrite (indexWhere_first _ sh i f Hf); [reflexivity|apply String.eqb_refl|].
  intros j g Hj Hg. apply String.eqb_neq. intros Heq.
  assert (j = i); [|lia].
  eapply (NoDup_lookup (fieldKey <$> sh) j i (fieldKey f)); [exact Hnd| |].
  - rewrite list_lookup_fmap, Hg. simpl. by rewrite Heq.
  - by rewrite list_lookup_fmap, Hf.
Qed.

Lemma decodeField_own (f : Field) (old v : GoVal) :
  hasType f v → decodeField (fieldType f) old (encodeVal v) = Ok v.
Proof.
  unfold hasType, decodeField.
  destruct (fieldType f), v; simpl; try contradiction; try reflexivity.
  by intros ->.
Qed.

(** Decoding the members written for the fields from the [k]-th on sets these
    fields and leaves the ones before them. *)
Lemma decodeMembers_encoded (sh : Shape) (s : Struct) :
  NoDup (fieldKey <$> sh) → Forall2 hasType sh s →
  ∀ (n k : nat) (c : Struct),
    (k + n = length sh)%nat → length c = length sh →
    decodeMembers sh (drop k (zip (fieldKey <$> sh) (encodeVal <$> s))) c
    = Ok (take k c ++ drop k s).
Proof.
  intros Hnd Hs. pose proof (Forall2_length _ _ _ Hs) as Hlen.
  induction n as [|n IH]; intros k c Hk Hc.
  - rewrite drop_ge by (rewrite length_zip_with, !length_fmap; lia).
    rewrite take_ge by lia. rewrite (drop_ge s) by lia.
    by rewrite app_nil_r.
  - destruct (lookup_lt_is_Some_2 sh k) as [f Hf]; [lia|].
    destruct (lookup_lt_is_Some_2 s k) as [v Hv]; [lia|].
    destruct (lookup_lt_is_Some_2 c k) as [old Hold]; [lia|].
    rewrite (drop_S _ (fieldKey f, encodeVal v) k).
    2:{ apply lookup_zip_with_Some. exists (fieldKey f), (encodeVal v).
        rewrite !list_lookup_fmap, Hf, Hv. done. }
    simpl. rewrite (findField_own sh k f Hnd Hf), Hf, Hold.
    rewrite decodeField_own by (eapply Forall2_lookup_lr; eauto).
    rewrite IH by (rewrite ?length_insert; lia).
    rewrite (take_S_r _ k v) by (apply list_lookup_insert_eq; lia).
    rewrite take_insert_ge by lia.
    rewrite (drop_S s v k Hv), <- app_assoc. reflexivity.
Qed.

(** A value of the struct is what its own encoding decodes to. *)
Lemma json_Unmarshal_encodeStruct (sh : Shape) (s : Struct) :
  NoDup (fieldKey <$> sh) → Forall2 hasType sh s →
  json_Unmarshal sh (JSONText (encodeStruct sh s)) = Ok s.
Proof.
  intros Hnd Hs. unfold json_Unmarshal, encodeStruct.
  pose proof (decodeMembers_encoded sh s Hnd Hs (length sh) 0 (zeroStruct sh))
    as H.
  rewrite !drop_0 in H. apply H; [lia|].
  unfold zeroStruct. apply length_map.
Qed.

(** Only null and objects decode into a struct, whatever its fields. *)
Lemma json_Unmarshal_object_or_null (sh : Shape) (v : json) (s : Struct) :
  json_Unmarshal sh (JSONText v) = Ok s → v = JNull ∨ ∃ ms, v = JObject ms.
Proof.
  destruct v; simpl; try discriminate; eauto.
Qed.

(** ** The archive link: authorization *)

(** C1.  An archive-link request whose caller does not hold the role
    platform-archive-download is answered 401 with the body made of the fixed
    message "Unauthorized" (neither the role nor anything of the request
    takes part in it), and no request to the storage broker is constructed
    or sent: writing that response is all the handler does. *)
Theorem archive_link_unauthorized (E : Env) (r : Request) (w : World) :
  identityHasRole E r "platform-archive-download" = false →
  responses (effects (PayloadArchiveLink E r w))
    = [(401, getErrorBody E "Unauthorized" 401)]
  ∧ brokerCalls (effects (PayloadArchiveLink E r w)) = []
  ∧ effects (PayloadArchiveLink E r w)
    = [WriteResponse 401 (getErrorBody E "Unauthorized" 401)].
Proof.
  intros H. rewrite PayloadArchiveLink_unauthorized by exact H.
  repeat split.
Qed.

Lemma archive_link_unauthorized_witness :
  identityHasRole fixture (Fixture.request [] "abc" "guest")
    "platform-archive-download" = false
  ∧ responses (effects (PayloadArchiveLink fixture
                          (Fixture.request [] "abc" "guest") initWorld))
    = [(401, getErrorBody fixture "Unauthorized" 401)]
  ∧ brokerCalls (effects (PayloadArchiveLink fixture
                            (Fixture.request [] "abc" "guest") initWorld)) = []
  ∧ effects (PayloadArchiveLink fixture
               (Fixture.request [] "abc" "guest") initWorld)
    = [WriteResponse 401 (getErrorBody fixture "Unauthorized" 401)].
Proof.
  split; [reflexivity|].
  apply (archive_link_unauthorized fixture (Fixture.request [] "abc" "guest")
           initWorld).
  reflexivity.
Defined.

(** ** The archive link: what is passed on *)

(** C2 as stated fails.  The storage broker of the fixture answers the
    authorized request for payload list with a JSON array, a valid JSON text,
    and the handler answers 500; it answers the request for payload timed
    with an object of two members, and the 200 response carries one of
    them. *)
Lemma archive_link_not_pass_through :
  identityHasRole fixture
    (Fixture.request [] "list" "platform-archive-download")
    "platform-archive-download" = true
  ∧ clientDo fixture
      (archiveRequest fixture (Fixture.request [] "list" "platform-archive-download"))
    = Ok {| StatusCode := 200;
            Body := Ok (JSONText (JArray [JString "https://bucket/list"])) |}
  ∧ responses (effects (PayloadArchiveLink fixture
                          (Fixture.request [] "list" "platform-archive-download")
                          initWorld))
    = [(500, getErrorBody fixture "Error unmarshaling the response" 500)]
  ∧ clientDo fixture
      (archiveRequest fixture (Fixture.request [] "timed" "platform-archive-download"))
    = Ok {| StatusCode := 200;
            Body := Ok (JSONText (JObject [("url", JString "https://bucket/timed");
                                           ("expires", JInt 60)])) |}
  ∧ responses (effects (PayloadArchiveLink fixture
                          (Fixture.request [] "timed" "platform-archive-download")
                          initWorld))
    = [(200, JSONText (JObject [("url", JString "https://bucket/timed")]))].
Proof. repeat split. Qed.

(** C2, amended.  For an authorized archive-link request to which the
    storage broker answers with a body that decodes into the archive-link
    struct, the response is 200 with the encoding of the decoded struct, one
    member per field.  That response decodes into the struct as the body of
    the broker does, and it is the body of the broker whenever that body is
    the encoding of a value of the struct. *)
Theorem archive_link_reencodes (E : Env) (r : Request) (w : World)
    (response : HttpResponse) (body : bytes) (link : Struct) :
  NoDup (fieldKey <$> archiveLinkShape E) →
  identityHasRole E r "platform-archive-download" = true →
  parseURLError E (archiveURL E r) = None →
  clientDo E (archiveRequest E r) = Ok response →
  Body response = Ok body →
  json_Unmarshal (archiveLinkShape E) body = Ok link →
  responses (effects (PayloadArchiveLink E r w))
    = [(200, JSONText (encodeStruct (archiveLinkShape E) link))]
  ∧ json_Unmarshal (archiveLinkShape E)
      (JSONText (encodeStruct (archiveLinkShape E) link))
    = json_Unmarshal (archiveLinkShape E) body
  ∧ ∀ sent : Struct,
      Forall2 hasType (archiveLinkShape E) sent →
      body = JSONText (encodeStruct (archiveLinkShape E) sent) →
      decode (JSONText (encodeStruct (archiveLinkShape E) link)) = decode body.
Proof.
  intros Hnd Hrole Hurl Hdo Hbody Hlink.
  rewrite PayloadArchiveLink_sent by assumption.
  rewrite Hdo, Hbody, Hlink. split; [reflexivity|]. split.
  - apply json_Unmarshal_encodeStruct; [exact Hnd|].
    eapply json_Unmarshal_typed, Hlink.
  - intros sent Hsent ->.
    rewrite json_Unmarshal_encodeStruct in Hlink by assumption.
    by injection Hlink as ->.
Qed.

Lemma archive_link_reencodes_witness :
  NoDup (fieldKey <$> archiveLinkShape fixture)
  ∧ responses (effects (PayloadArchiveLink fixture
                          (Fixture.request [] "timed" "platform-archive-download")
                          initWorld))
    = [(200, JSONText (encodeStruct (archiveLinkShape fixture)
                         [VString "https://bucket/timed"]))].
Proof.
  assert (Hnd : NoDup (fieldKey <$> archiveLinkShape fixture)).
  { apply NoDup_singleton. }
  split; [exact Hnd|].
  eapply (archive_link_reencodes fixture
            (Fixture.request [] "timed" "platform-archive-download") initWorld
            _ _ [VString "https://bucket/timed"] Hnd); reflexivity.
Defined.

(** ** Timestamps *)




(** ** Validation *)

Lemma firstViolation_sortBy (E : Env) (wl : list string) (ts : bool) (q : Query) :
  SortBy q ∉ wl →
  firstViolation E wl ts q
  = Some ("sort_by must be one of " +:+ strings_Join wl ", ").
Proof.
  intros H. unfold firstViolation. by rewrite stringInSlice_absent.
Qed.

Lemma firstViolation_sortDir (E : Env) (wl : list string) (ts : bool) (q : Query) :
  SortBy q ∈ wl → SortDir q ∉ validSortDir E →
  firstViolation E wl ts q
  = Some ("sort_dir must be one of " +:+ strings_Join (validSortDir E) ", ").
Proof.
  intros Hby Hdir. unfold firstViolation.
  apply stringInSlice_elem in Hby. rewrite Hby. simpl.
  by rewrite stringInSlice_absent.
Qed.

Lemma firstViolation_none (E : Env) (wl : list string) (ts : bool) (q : Query) :
  SortBy q ∈ wl → SortDir q ∈ validSortDir E →
  (ts = true → validTimestamps E q false = true) →
  firstViolation E wl ts q = None.
Proof.
  intros Hby Hdir Hts. unfold firstViolation.
  apply stringInSlice_elem in Hby. apply stringInSlice_elem in Hdir.
  rewrite Hby, Hdir. simpl.
  destruct ts; [|reflexivity]. by rewrite Hts.
Qed.

Lemma payloadsQuery_page (r : Request) (q : Query) :
  Page (payloadsQuery r q) = Page q ∧ PageSize (payloadsQuery r q) = PageSize q.
Proof. unfold payloadsQuery. by destruct (String.eqb _ _). Qed.

(** The run of either endpoint on a descriptor that the validator of the
    specification turns down. *)
Lemma serve_rejected (E : Env) (ep : Endpoint) (r : Request) (w : World)
    (q : Query) (message : string) :
  initQuery E r = Ok q →
  firstViolation E (whitelist E ep) (checksTimestamps ep) (descriptor ep r q)
  = Some message →
  responses (effects (serve E ep r w)) = [(400, getErrorBody E message 400)]
  ∧ storageCalls (effects (serve E ep r w)) = [].
Proof.
  intros Hq Hv. destruct ep; simpl in *.
  - by rewrite (Payloads_rejected E r w q message).
  - by rewrite (RequestIdPayloads_rejected E r w q message).
Qed.

(** C4.  When the sort_by of the descriptor is not in the whitelist of the
    endpoint that is served (validAllSortBy for /payloads, validIDSortBy for
    /payloads/{request_id}), the response is 400 and its message is
    "sort_by must be one of " followed by the members of that whitelist,
    joined with ", " in the order of the list; every member of the
    whitelist occurs in the message. *)
Theorem sort_by_outside_whitelist (E : Env) (ep : Endpoint) (r : Request)
    (w : World) (q : Query) :
  initQuery E r = Ok q →
  SortBy (descriptor ep r q) ∉ whitelist E ep →
  responses (effects (serve E ep r w))
    = [(400, getErrorBody E ("sort_by must be one of "
                             +:+ strings_Join (whitelist E ep) ", ") 400)]
  ∧ ∀ member : string,
      member ∈ whitelist E ep →
      strings_Contains ("sort_by must be one of "
                        +:+ strings_Join (whitelist E ep) ", ") member = true.
Proof.
  intros Hq Hout. split.
  - eapply serve_rejected; [exact Hq|]. by apply firstViolation_sortBy.
  - intros member Hin. by apply joined_names_member.
Qed.

Lemma sort_by_outside_whitelist_witness :
  initQuery fixture (Fixture.request [("sort_by", "bogus_field")] "" "")
  = Ok {| Page := 1; PageSize := 10; SortBy := "bogus_field"; SortDir := "desc";
          StartDate := ""; EndDate := ""; Filters := ∅ |}
  ∧ responses (effects (Payloads fixture
                          (Fixture.request [("sort_by", "bogus_field")] "" "")
                          initWorld))
    = [(400, getErrorBody fixture
               "sort_by must be one of created_at, updated_at, account" 400)]
  ∧ responses (effects (RequestIdPayloads fixture
                          (Fixture.request [("sort_by", "bogus_field")] "" "")
                          initWorld))
    = [(400, getErrorBody fixture
               "sort_by must be one of created_at, date, status" 400)].
Proof.
  split; [reflexivity|]. split.
  - eapply (sort_by_outside_whitelist fixture AllPayloads
              (Fixture.request [("sort_by", "bogus_field")] "" "") initWorld);
      [reflexivity|].
    apply stringInSlice_false. reflexivity.
  - eapply (sort_by_outside_whitelist fixture ByRequestId
              (Fixture.request [("sort_by", "bogus_field")] "" "") initWorld);
      [reflexivity|].
    apply stringInSlice_false. reflexivity.
Defined.

(** C5.  Every run of /payloads and of /payloads/{request_id} writes exactly
    one response.  A request that [initQuery] turns down is answered 400 with
    its error.  Otherwise the handler runs the checks of the validator of
    the specification in its order, sort_by, then sort_dir, then (on
    /payloads) the timestamps, and answers 400 with the message of the first
    check that fails; in particular a sort_dir outside the valid directions
    gives 400.  On each of these failures the data layer is not called; when
    no check fails it is called once. *)
Theorem validation_short_circuits (E : Env) (ep : Endpoint) (r : Request)
    (w : World) :
  length (responses (effects (serve E ep r w))) = 1%nat
  ∧ (∀ e : error,
       initQuery E r = Err e →
       responses (effects (serve E ep r w)) = [(400, getErrorBody E e 400)]
       ∧ storageCalls (effects (serve E ep r w)) = [])
  ∧ ∀ q : Query,
      initQuery E r = Ok q →
      (∀ message : string,
         firstViolation E (whitelist E ep) (checksTimestamps ep) (descriptor ep r q)
         = Some message →
         responses (effects (serve E ep r w)) = [(400, getErrorBody E message 400)]
         ∧ storageCalls (effects (serve E ep r w)) = [])
      ∧ (SortBy (descriptor ep r q) ∈ whitelist E ep →
         SortDir (descriptor ep r q) ∉ validSortDir E →
         responses (effects (serve E ep r w))
         = [(400, getErrorBody E ("sort_dir must be one of "
                                  +:+ strings_Join (validSortDir E) ", ") 400)])
      ∧ (SortDir (descriptor ep r q) ∉ validSortDir E →
         ∃ message : string,
           responses (effects (serve E ep r w)) = [(400, getErrorBody E message 400)]
           ∧ storageCalls (effects (serve E ep r w)) = [])
      ∧ (firstViolation E (whitelist E ep) (checksTimestamps ep) (descriptor ep r q)
         = None →
         length (storageCalls (effects (serve E ep r w))) = 1%nat).
Proof.
  assert (Hmal : ∀ e, initQuery E r = Err e →
            responses (effects (serve E ep r w)) = [(400, getErrorBody E e 400)]
            ∧ storageCalls (effects (serve E ep r w)) = []).
  { intros e He. destruct ep; simpl.
    - by rewrite (Payloads_malformed E r w e).
    - by rewrite (RequestIdPayloads_malformed E r w e). }
  assert (Hacc : ∀ q, initQuery E r = Ok q →
            firstViolation E (whitelist E ep) (checksTimestamps ep) (descriptor ep r q)
            = None →
            length (responses (effects (serve E ep r w))) = 1%nat
            ∧ length (storageCalls (effects (serve E ep r w))) = 1%nat).
  { intros q Hq Hv. destruct ep; simpl in *.
    - rewrite (Payloads_accepted E r w q Hq Hv). cbv zeta.
      by destruct (marshalPayloadsData _ _).
    - rewrite (RequestIdPayloads_accepted E r w q Hq Hv). cbv zeta.
      destruct (noRecords _); [done|].
      by destruct (marshalPayloadRetrievebyID E _ _). }
  split; [|split; [exact Hmal|]].
  - destruct (initQuery E r) as [q|e] eqn:Hq.
    + destruct (firstViolation E (whitelist E ep) (checksTimestamps ep)
                  (descriptor ep r q)) as [message|] eqn:Hv.
      * destruct (serve_rejected E ep r w q message Hq Hv) as [-> _]. done.
      * by destruct (Hacc q).
    + destruct (Hmal e) as [-> _]; done.
  - intros q Hq. split; [|split; [|split]].
    + intros message Hv. by apply (serve_rejected E ep r w q).
    + intros Hby Hdir. eapply serve_rejected; [exact Hq|].
      by apply firstViolation_sortDir.
    + intros Hdir.
      destruct (decide (SortBy (descriptor ep r q) ∈ whitelist E ep)) as [Hby|Hby].
      * eexists. eapply serve_rejected; [exact Hq|].
        by apply firstViolation_sortDir.
      * eexists. eapply serve_rejected; [exact Hq|].
        by apply firstViolation_sortBy.
    + intros Hv. by destruct (Hacc q).
Qed.

Lemma validation_short_circuits_witness :
  length (responses (effects (serve fixture AllPayloads
            (Fixture.request [("sort_by", "nope"); ("sort_dir", "sideways");
                              ("created_at_from", "yesterday")] "" "")
            initWorld))) = 1%nat
  ∧ responses (effects (serve fixture AllPayloads
            (Fixture.request [("sort_by", "nope"); ("sort_dir", "sideways");
                              ("created_at_from", "yesterday")] "" "")
            initWorld))
    = [(400, getErrorBody fixture
               "sort_by must be one of created_at, updated_at, account" 400)]
  ∧ storageCalls (effects (serve fixture AllPayloads
            (Fixture.request [("sort_by", "nope"); ("sort_dir", "sideways");
                              ("created_at_from", "yesterday")] "" "")
            initWorld)) = [].
Proof.
  pose proof (validation_short_circuits fixture AllPayloads
                (Fixture.request [("sort_by", "nope"); ("sort_dir", "sideways");
                                  ("created_at_from", "yesterday")] "" "")
                initWorld) as [Hone [_ Hq]].
  split; [exact Hone|].
  edestruct Hq as [Hfirst _]; [reflexivity|].
  apply Hfirst. reflexivity.
Defined.

(** C6.  When a /payloads/{request_id} request passes validation and the
    data layer returns no record for it (the nil slice or an empty one), the
    response is 404 and its message, "payload with id: " followed by the
    request id and " not found", contains the request id. *)
Theorem request_id_not_found (E : Env) (r : Request) (w : World) (q : Query) :
  initQuery E r = Ok q →
  SortBy q ∈ validIDSortBy E →
  SortDir q ∈ validSortDir E →
  len (RetrieveRequestIdPayloads E (chi_URLParam r "request_id") (SortBy q)
         (SortDir q) (Values_Get (URLQuery r) "verbosity")) = 0%nat →
  responses (effects (RequestIdPayloads E r w))
    = [(404, getErrorBody E ("payload with id: " +:+ chi_URLParam r "request_id"
                             +:+ " not found") 404)]
  ∧ strings_Contains ("payload with id: " +:+ chi_URLParam r "request_id"
                      +:+ " not found") (chi_URLParam r "request_id") = true.
Proof.
  intros Hq Hby Hdir Hnone. split; [|apply strings_Contains_app].
  rewrite (RequestIdPayloads_accepted E r w q Hq)
    by (by apply firstViolation_none).
  cbv zeta. unfold noRecords. rewrite Hnone, orb_true_r. reflexivity.
Qed.

Lemma request_id_not_found_witness :
  initQuery fixture (Fixture.request [("sort_by", "status")] "xyz" "")
  = Ok {| Page := 1; PageSize := 10; SortBy := "status"; SortDir := "desc";
          StartDate := ""; EndDate := ""; Filters := ∅ |}
  ∧ responses (effects (RequestIdPayloads fixture
                          (Fixture.request [("sort_by", "status")] "xyz" "")
                          initWorld))
    = [(404, getErrorBody fixture "payload with id: xyz not found" 404)]
  ∧ strings_Contains "payload with id: xyz not found" "xyz" = true.
Proof.
  split; [reflexivity|].
  eapply (request_id_not_found fixture
            (Fixture.request [("sort_by", "status")] "xyz" "") initWorld);
    [reflexivity| | |reflexivity].
  - apply stringInSlice_elem. reflexivity.
  - apply stringInSlice_elem. reflexivity.
Defined.

(** ** The archive link: the request to the storage broker *)

Lemma Header_Add_empty (key value : string) :
  Header_Add ∅ key value = {[key := [value]]}.
Proof. unfold Header_Add. rewrite lookup_empty. apply insert_empty. Qed.




(** ** The page of payloads *)

(** C8.  A /payloads request that passes validation calls RetrievePayloads
    once, with the page and the page size of its descriptor and the
    descriptor itself; when the records it returns encode, the response is
    200 and its body is the object of count, the total the data layer
    reported, duration, the seconds from the first reading of the clock, at
    the start of the handler, to the reading after the call, and data, the
    encoded records. *)
Theorem all_payloads_fetches_page (E : Env) (r : Request) (w : World)
    (q : Query) (records : json) :
  initQuery E r = Ok q →
  SortBy (payloadsQuery r q) ∈ validAllSortBy E →
  SortDir (payloadsQuery r q) ∈ validSortDir E →
  validTimestamps E (payloadsQuery r q) false = true →
  marshalSlice (marshalPayload E)
    (RetrievePayloads E (Page q) (PageSize q) (payloadsQuery r q)).2 = Ok records →
  storageCalls (effects (Payloads E r w))
    = [CallRetrievePayloads (Page q) (PageSize q) (payloadsQuery r q)]
  ∧ responses (effects (Payloads E r w))
    = [(200,
        JSONText
          (JObject
             [("count",
               JInt (RetrievePayloads E (Page q) (PageSize q) (payloadsQuery r q)).1);
              ("duration",
               JFloat (Seconds (clock E (S (ticks w)) - clock E (ticks w))));
              ("data", records)]))].
Proof.
  intros Hq Hby Hdir Hts Hrec.
  rewrite (Payloads_accepted E r w q Hq)
    by (by apply firstViolation_none).
  cbv zeta. destruct (payloadsQuery_page r q) as [-> ->].
  unfold marshalPayloadsData. cbn [Data Count Duration].
  rewrite Hrec. split; reflexivity.
Qed.

Lemma all_payloads_fetches_page_witness :
  initQuery fixture
    (Fixture.request [("page", "2"); ("page_size", "10");
                      ("sort_by", "created_at"); ("sort_dir", "desc")] "" "")
  = Ok {| Page := 2; PageSize := 10; SortBy := "created_at"; SortDir := "desc";
          StartDate := ""; EndDate := ""; Filters := ∅ |}
  ∧ storageCalls (effects (Payloads fixture
       (Fixture.request [("page", "2"); ("page_size", "10");
                         ("sort_by", "created_at"); ("sort_dir", "desc")] "" "")
       initWorld))
    = [CallRetrievePayloads 2 10
         {| Page := 2; PageSize := 10; SortBy := "created_at"; SortDir := "desc";
            StartDate := ""; EndDate := ""; Filters := ∅ |}]
  ∧ responses (effects (Payloads fixture
       (Fixture.request [("page", "2"); ("page_size", "10");
                         ("sort_by", "created_at"); ("sort_dir", "desc")] "" "")
       initWorld))
    = [(200,
        JSONText
          (JObject
             [("count", JInt 35);
              ("duration", JFloat (Seconds 250));
              ("data",
               JArray ((λ i, JObject [("id", JInt i)]) <$> seqZ 11 10))]))].
Proof.
  split; [reflexivity|].
  apply (all_payloads_fetches_page fixture
           (Fixture.request [("page", "2"); ("page_size", "10");
                             ("sort_by", "created_at"); ("sort_dir", "desc")] "" "")
           initWorld
           {| Page := 2; PageSize := 10; SortBy := "created_at"; SortDir := "desc";
              StartDate := ""; EndDate := ""; Filters := ∅ |}
           (JArray ((λ i, JObject [("id", JInt i)]) <$> seqZ 11 10)));
    [reflexivity| | |reflexivity|reflexivity].
  - apply stringInSlice_elem. reflexivity.
  - apply stringInSlice_elem. reflexivity.
Defined.

(** ** The archive link: the status of the storage broker *)

Lemma PayloadArchiveLink_status_blind (E : Env) (code : OutRequest → Z)
    (r : Request) (w : World) :
  PayloadArchiveLink (withBrokerStatus code E) r w = PayloadArchiveLink E r w.
Proof.
  unfold PayloadArchiveLink. run_handler.
  cbn [withBrokerStatus identityHasRole getErrorBody StorageBrokerURL
         parseURLError clientDo archiveLinkShape].
  destruct (identityHasRole E r _); [|reflexivity]. cbn [negb fst snd app].
  destruct (parseURLError E _); [reflexivity|]. cbn [fst snd app].
  destruct (clientDo E _) as [response|e]; reflexivity.
Qed.

(** C9.  For an authorized archive-link request whose URL parses, whenever
    the body the storage broker answers with decodes into the archive-link
    struct, the response is 200 with the encoding of that struct, with no
    condition on the status code of the broker's answer; and the whole run
    of the handler is the same when the broker answers with any other
    status codes. *)
Theorem archive_link_ignores_status (E : Env) (r : Request) (w : World)
    (response : HttpResponse) (body : bytes) (link : Struct) :
  identityHasRole E r "platform-archive-download" = true →
  parseURLError E (archiveURL E r) = None →
  clientDo E (archiveRequest E r) = Ok response →
  Body response = Ok body →
  json_Unmarshal (archiveLinkShape E) body = Ok link →
  responses (effects (PayloadArchiveLink E r w))
    = [(200, JSONText (encodeStruct (archiveLinkShape E) link))]
  ∧ ∀ code : OutRequest → Z,
      PayloadArchiveLink (withBrokerStatus code E) r w = PayloadArchiveLink E r w.
Proof.
  intros Hrole Hurl Hdo Hbody Hlink. split.
  - rewrite PayloadArchiveLink_sent by assumption.
    by rewrite Hdo, Hbody, Hlink.
  - intros code. apply PayloadArchiveLink_status_blind.
Qed.

Lemma archive_link_ignores_status_witness :
  clientDo fixture
    (archiveRequest fixture (Fixture.request [] "gone" "platform-archive-download"))
  = Ok {| StatusCode := 404;
          Body := Ok (JSONText (JObject [("message", JString "no such payload")])) |}
  ∧ responses (effects (PayloadArchiveLink fixture
                          (Fixture.request [] "gone" "platform-archive-download")
                          initWorld))
    = [(200, JSONText (JObject [("url", JString "")]))].
Proof.
  split; [reflexivity|].
  eapply (archive_link_ignores_status fixture
            (Fixture.request [] "gone" "platform-archive-download") initWorld
            _ _ [VString ""]); reflexivity.
Defined.

(** ** The package variable verbosity *)

Lemma Payloads_keeps_verbosity (E : Env) (r : Request) (w : World) :
  verbosity (worldAfter (Payloads E r w)) = verbosity w.
Proof.
  destruct (initQuery E r) as [q|e] eqn:Hq.
  - destruct (firstViolation E (validAllSortBy E) true (payloadsQuery r q))
      as [message|] eqn:Hv.
    + by rewrite (Payloads_rejected E r w q message).
    + rewrite (Payloads_accepted E r w q Hq Hv). cbv zeta.
      by destruct (marshalPayloadsData _ _).
  - by rewrite (Payloads_malformed E r w e).
Qed.

Lemma RequestIdPayloads_sets_verbosity (E : Env) (r : Request) (w : World) :
  verbosity (worldAfter (RequestIdPayloads E r w))
    = Values_Get (URLQuery r) "verbosity"
  ∧ ∀ reqID sortBy sortDir verb : string,
      CallRetrieveRequestIdPayloads reqID sortBy sortDir verb
        ∈ effects (RequestIdPayloads E r w) →
      verb = Values_Get (URLQuery r) "verbosity".
Proof.
  destruct (initQuery E r) as [q|e] eqn:Hq.
  - destruct (firstViolation E (validIDSortBy E) false q) as [message|] eqn:Hv.
    + rewrite (RequestIdPayloads_rejected E r w q message) by assumption.
      split; [reflexivity|]. intros ? ? ? ? Hin. simpl in Hin.
      apply list_elem_of_singleton in Hin. discriminate.
    + rewrite (RequestIdPayloads_accepted E r w q Hq Hv). cbv zeta.
      destruct (noRecords _); [|destruct (marshalPayloadRetrievebyID E _ _)];
        (split; [reflexivity|]); intros ? ? ? ? Hin; simpl in Hin;
        repeat (apply elem_of_cons in Hin as [Hin|Hin]; [congruence|]);
        by apply not_elem_of_nil in Hin.
  - rewrite (RequestIdPayloads_malformed E r w e) by assumption.
    split; [reflexivity|]. intros ? ? ? ? Hin. simpl in Hin.
    apply list_elem_of_singleton in Hin. discriminate.
Qed.

(** After any sequence of requests the variable holds what the last
    /payloads/{request_id} request of the sequence set. *)
Lemma serveAll_verbosity (E : Env) (reqs : list (Endpoint * Request)) :
  ∀ w : World,
    verbosity (serveAll E reqs w) = lastVerbosity reqs (verbosity w).
Proof.
  induction reqs as [|[ep r] rest IH]; intros w; [reflexivity|].
  simpl. rewrite IH. destruct ep; simpl.
  - by rewrite Payloads_keeps_verbosity.
  - by destruct (RequestIdPayloads_sets_verbosity E r w) as [-> _].
Qed.

(** C10.  [verbosity] is state of the package, handed from one request to the
    next.  A run of /payloads/{request_id} leaves it at the verbosity
    parameter of its request, and every call of RetrieveRequestIdPayloads in
    that run is given this value; a run of /payloads leaves it as it found
    it.  So after any sequence of requests to the two endpoints it holds the
    parameter of the last /payloads/{request_id} request among them. *)
Theorem verbosity_is_package_state (E : Env) (r : Request) (w : World) :
  verbosity (worldAfter (RequestIdPayloads E r w))
    = Values_Get (URLQuery r) "verbosity"
  ∧ (∀ reqID sortBy sortDir verb : string,
       CallRetrieveRequestIdPayloads reqID sortBy sortDir verb
         ∈ effects (RequestIdPayloads E r w) →
       verb = Values_Get (URLQuery r) "verbosity")
  ∧ verbosity (worldAfter (Payloads E r w)) = verbosity w
  ∧ ∀ reqs : list (Endpoint * Request),
      verbosity (serveAll E reqs w) = lastVerbosity reqs (verbosity w).
Proof.
  destruct (RequestIdPayloads_sets_verbosity E r w) as [Hafter Hcall].
  split; [exact Hafter|]. split; [exact Hcall|].
  split; [apply Payloads_keeps_verbosity|].
  intros reqs. apply serveAll_verbosity.
Qed.

Lemma verbosity_is_package_state_witness :
  verbosity (worldAfter (RequestIdPayloads fixture
                           (Fixture.request [("verbosity", "2")] "abc" "") initWorld))
  = "2"
  ∧ verbosity (worldAfter (Payloads fixture (Fixture.request [("verbosity", "2")] "abc" "")
                             initWorld)) = "0".
Proof.
  pose proof (verbosity_is_package_state fixture
                (Fixture.request [("verbosity", "2")] "abc" "") initWorld)
    as [Hset [_ [Hkeep _]]].
  split; [exact Hset|exact Hkeep].
Defined.

(** * Further properties of the handlers *)

(** ** Every path of a handler *)

Ltac payloads_paths E r w :=
  destruct (initQuery E r) as [q|e] eqn:Hq;
  [ destruct (firstViolation E (validAllSortBy E) true (payloadsQuery r q))
      as [message|] eqn:Hv;
    [ rewrite (Payloads_rejected E r w q message Hq Hv) in *
    | rewrite (Payloads_accepted E r w q Hq Hv) in *; cbv zeta;
      destruct (marshalPayloadsData _ _) as [v|e] eqn:Hm ]
  | rewrite (Payloads_malformed E r w e Hq) in * ].

Ltac request_id_paths E r w :=
  destruct (initQuery E r) as [q|e] eqn:Hq;
  [ destruct (firstViolation E (validIDSortBy E) false q) as [message|] eqn:Hv;
    [ rewrite (RequestIdPayloads_rejected E r w q message Hq Hv) in *
    | rewrite (RequestIdPayloads_accepted E r w q Hq Hv) in *; cbv zeta;
      destruct (noRecords _) eqn:Hnone;
      [ | destruct (marshalPayloadRetrievebyID E _ _) as [v|e] eqn:Hm ] ]
  | rewrite (RequestIdPayloads_malformed E r w e Hq) in * ].

Ltac archive_link_paths E r w :=
  destruct (identityHasRole E r "platform-archive-download") eqn:Hrole;
  [ destruct (parseURLError E (archiveURL E r)) as [e|] eqn:Hurl;
    [ rewrite (PayloadArchiveLink_unbuilt E r w e Hrole Hurl) in *
    | rewrite (PayloadArchiveLink_sent E r w Hrole Hurl) in *; cbv zeta;
      destruct (clientDo E (archiveRequest E r)) as [response|e] eqn:Hdo;
      [ destruct (Body response) as [body|e] eqn:Hbody;
        [ destruct (json_Unmarshal (archiveLinkShape E) body) as [link|e] eqn:Hlink
        | ]
      | ] ]
  | rewrite (PayloadArchiveLink_unauthorized E r w Hrole) in * ].

(** Membership of an event in a run that is written out. *)
Ltac event_in H :=
  simpl in H; set_unfold in H; destruct_or?; simplify_eq.

Lemma firstViolation_none_inv (E : Env) (wl : list string) (ts : bool) (q : Query) :
  firstViolation E wl ts q = None →
  SortBy q ∈ wl ∧ SortDir q ∈ validSortDir E
  ∧ (ts = true → validTimestamps E q false = true).
Proof.
  unfold firstViolation. intros H.
  destruct (stringInSlice (SortBy q) wl) eqn:Hby; [|discriminate].
  destruct (stringInSlice (SortDir q) (validSortDir E)) eqn:Hdir; [|discriminate].
  simpl in H. split; [by apply stringInSlice_elem|].
  split; [by apply stringInSlice_elem|].
  intros ->. simpl in H. by destruct (validTimestamps E q false).
Qed.

(** ** What reaches the data layer *)

(** X1.  RetrievePayloads is only ever called with a validated descriptor:
    whenever a run of /payloads calls it, the sort field of the descriptor is
    in validAllSortBy, its direction in validSortDir, the descriptor passes
    validTimestamps, and the page and page size handed over are the ones of
    that descriptor. *)
Theorem payloads_query_validated (E : Env) (r : Request) (w : World)
    (page pageSize : Z) (q' : Query) :
  CallRetrievePayloads page pageSize q' ∈ effects (Payloads E r w) →
  SortBy q' ∈ validAllSortBy E
  ∧ SortDir q' ∈ validSortDir E
  ∧ validTimestamps E q' false = true
  ∧ page = Page q' ∧ pageSize = PageSize q'.
Proof.
  intros Hin. payloads_paths E r w; event_in Hin;
    destruct (firstViolation_none_inv _ _ _ _ Hv) as (Hby & Hdir & Hts);
    auto.
Qed.

Lemma payloads_query_validated_witness :
  CallRetrievePayloads 3 5
    {| Page := 3; PageSize := 5; SortBy := "account"; SortDir := "asc";
       StartDate := ""; EndDate := ""; Filters := ∅ |}
    ∈ effects (Payloads fixture
                 (Fixture.request [("page", "3"); ("page_size", "5");
                                   ("sort_by", "account"); ("sort_dir", "asc")] "" "")
                 initWorld)
  ∧ "account" ∈ validAllSortBy fixture
  ∧ "asc" ∈ validSortDir fixture
  ∧ validTimestamps fixture
      {| Page := 3; PageSize := 5; SortBy := "account"; SortDir := "asc";
         StartDate := ""; EndDate := ""; Filters := ∅ |} false = true
  ∧ 3 = 3 ∧ 5 = 5.
Proof.
  assert (Hin : CallRetrievePayloads 3 5
    {| Page := 3; PageSize := 5; SortBy := "account"; SortDir := "asc";
       StartDate := ""; EndDate := ""; Filters := ∅ |}
    ∈ effects (Payloads fixture
                 (Fixture.request [("page", "3"); ("page_size", "5");
                                   ("sort_by", "account"); ("sort_dir", "asc")] "" "")
                 initWorld)).
  { vm_compute. apply list_elem_of_further, list_elem_of_here. }
  split; [exact Hin|].
  exact (payloads_query_validated fixture _ initWorld 3 5 _ Hin).
Defined.

(** X2.  RetrieveRequestIdPayloads is only ever called with a validated sort:
    whenever a run of /payloads/{request_id} calls it, the sort field is in
    validIDSortBy, the direction in validSortDir, and the id is the request_id
    of the route. *)
Theorem request_id_query_validated (E : Env) (r : Request) (w : World)
    (reqID sortBy sortDir verb : string) :
  CallRetrieveRequestIdPayloads reqID sortBy sortDir verb
    ∈ effects (RequestIdPayloads E r w) →
  sortBy ∈ validIDSortBy E
  ∧ sortDir ∈ validSortDir E
  ∧ reqID = chi_URLParam r "request_id".
Proof.
  intros Hin. request_id_paths E r w; event_in Hin;
    destruct (firstViolation_none_inv _ _ _ _ Hv) as (Hby & Hdir & _);
    auto.
Qed.

Lemma request_id_query_validated_witness :
  CallRetrieveRequestIdPayloads "abc" "status" "asc" ""
    ∈ effects (RequestIdPayloads fixture
                 (Fixture.request [("sort_by", "status"); ("sort_dir", "asc")] "abc" "")
                 initWorld)
  ∧ "status" ∈ validIDSortBy fixture
  ∧ "asc" ∈ validSortDir fixture
  ∧ "abc" = chi_URLParam
              (Fixture.request [("sort_by", "status"); ("sort_dir", "asc")] "abc" "")
              "request_id".
Proof.
  assert (Hin : CallRetrieveRequestIdPayloads "abc" "status" "asc" ""
    ∈ effects (RequestIdPayloads fixture
                 (Fixture.request [("sort_by", "status"); ("sort_dir", "asc")] "abc" "")
                 initWorld)).
  { vm_compute. apply list_elem_of_here. }
  split; [exact Hin|].
  exact (request_id_query_validated fixture _ initWorld "abc" "status" "asc" "" Hin).
Defined.

(** ** One response, of a known status *)

(** X3.  Every run of a handler writes exactly one response.  The status of
    /payloads is 200, 400 or 500; of /payloads/{request_id} 200, 400, 404 or
    500; of the archive link 200, 401 or 500. *)
Theorem one_response_of_known_status (E : Env) (r : Request) (w : World) :
  (∃ status body, responses (effects (Payloads E r w)) = [(status, body)]
                  ∧ status ∈ [200; 400; 500])
  ∧ (∃ status body, responses (effects (RequestIdPayloads E r w)) = [(status, body)]
                    ∧ status ∈ [200; 400; 404; 500])
  ∧ (∃ status body, responses (effects (PayloadArchiveLink E r w)) = [(status, body)]
                    ∧ status ∈ [200; 401; 500]).
Proof.
  split; [|split].
  - payloads_paths E r w; eexists _, _; (split; [reflexivity|set_solver]).
  - request_id_paths E r w; eexists _, _; (split; [reflexivity|set_solver]).
  - archive_link_paths E r w; eexists _, _; (split; [reflexivity|set_solver]).
Qed.

(** ** Which collaborators a handler touches *)

(** X4.  The two payload endpoints never construct or send a request to the
    storage broker and write no audit line; the archive link never calls the
    data layer, records no metric, and leaves the package state, verbosity
    included, as it found it. *)
Theorem handlers_keep_to_their_collaborators (E : Env) (r : Request) (w : World) :
  brokerCalls (effects (Payloads E r w)) = []
  ∧ auditLines (effects (Payloads E r w)) = []
  ∧ brokerCalls (effects (RequestIdPayloads E r w)) = []
  ∧ auditLines (effects (RequestIdPayloads E r w)) = []
  ∧ storageCalls (effects (PayloadArchiveLink E r w)) = []
  ∧ metrics (effects (PayloadArchiveLink E r w)) = []
  ∧ worldAfter (PayloadArchiveLink E r w) = w.
Proof.
  split; [payloads_paths E r w; reflexivity|].
  split; [payloads_paths E r w; reflexivity|].
  split; [request_id_paths E r w; reflexivity|].
  split; [request_id_paths E r w; reflexivity|].
  archive_link_paths E r w; repeat split.
Qed.

(** ** Metrics *)

(** X5.  Every /payloads request is counted once by incRequests, the ones
    turned down included, and the time of the data layer is observed once for
    each call of RetrievePayloads, after it; /payloads/{request_id} records
    no metric. *)
Theorem payloads_metrics (E : Env) (r : Request) (w : World) :
  (∃ observed : list Event,
     metrics (effects (Payloads E r w)) = IncRequests :: observed
     ∧ length observed = length (storageCalls (effects (Payloads E r w)))
     ∧ ∀ m, m ∈ observed → ∃ d, m = ObserveDBTime d)
  ∧ metrics (effects (RequestIdPayloads E r w)) = [].
Proof.
  split.
  - payloads_paths E r w; eexists; (split; [reflexivity|]);
      (split; [reflexivity|]); intros m Hobs; event_in Hobs; eauto.
  - request_id_paths E r w; reflexivity.
Qed.



(** ** Requests do not interfere through the package state *)

(** X7.  What a handler does is independent of the value of verbosity it
    finds: /payloads/{request_id} overwrites it before it is read, and the
    other two never read it.  So no request sees the verbosity of an earlier
    one. *)
Theorem verbosity_does_not_leak (E : Env) (r : Request) (w : World) (v : string) :
  effects (RequestIdPayloads E r {| verbosity := v; ticks := ticks w |})
    = effects (RequestIdPayloads E r w)
  ∧ effects (Payloads E r {| verbosity := v; ticks := ticks w |})
    = effects (Payloads E r w)
  ∧ effects (PayloadArchiveLink E r {| verbosity := v; ticks := ticks w |})
    = effects (PayloadArchiveLink E r w).
Proof.
  split; [|split].
  - destruct (initQuery E r) as [q|e] eqn:Hq.
    + destruct (firstViolation E (validIDSortBy E) false q) as [message|] eqn:Hv.
      * by rewrite !(RequestIdPayloads_rejected E r _ q message Hq Hv).
      * rewrite !(RequestIdPayloads_accepted E r _ q Hq Hv). cbv zeta.
        destruct (noRecords _); [reflexivity|].
        by destruct (marshalPayloadRetrievebyID E _ _).
    + by rewrite !(RequestIdPayloads_malformed E r _ e Hq).
  - destruct (initQuery E r) as [q|e] eqn:Hq.
    + destruct (firstViolation E (validAllSortBy E) true (payloadsQuery r q))
        as [message|] eqn:Hv.
      * by rewrite !(Payloads_rejected E r _ q message Hq Hv).
      * rewrite !(Payloads_accepted E r _ q Hq Hv). cbv zeta. cbn [ticks].
        by destruct (marshalPayloadsData _ _).
    + by rewrite !(Payloads_malformed E r _ e Hq).
  - destruct (identityHasRole E r "platform-archive-download") eqn:Hrole.
    + destruct (parseURLError E (archiveURL E r)) as [e|] eqn:Hurl.
      * by rewrite !(PayloadArchiveLink_unbuilt E r _ e Hrole Hurl).
      * rewrite !(PayloadArchiveLink_sent E r _ Hrole Hurl). cbv zeta.
        destruct (clientDo E _) as [response|e]; [|reflexivity].
        destruct (Body response) as [body|e]; [|reflexivity].
        by destruct (json_Unmarshal _ body).
    + by rewrite !(PayloadArchiveLink_unauthorized E r _ Hrole).
Qed.

(** ** The sort field of /payloads *)

Lemma Payloads_queries_descriptor (E : Env) (r : Request) (w : World)
    (q : Query) (page pageSize : Z) (q' : Query) :
  initQuery E r = Ok q →
  CallRetrievePayloads page pageSize q' ∈ effects (Payloads E r w) →
  q' = payloadsQuery r q.
Proof.
  intros Hinit Hin.
  destruct (firstViolation E (validAllSortBy E) true (payloadsQuery r q))
    as [message|] eqn:Hv.
  - rewrite (Payloads_rejected E r w q message Hinit Hv) in Hin. event_in Hin.
  - rewrite (Payloads_accepted E r w q Hinit Hv) in Hin. cbv zeta in Hin.
    destruct (marshalPayloadsData _ _); event_in Hin; reflexivity.
Qed.

(** X8.  /payloads has its own default for the sort field.  For a request
    without sort_by (or with an empty one) the descriptor that is validated
    and queried is the one of initQuery with SortBy replaced by created_at,
    whatever initQuery had put there, so the request is turned down when
    created_at is not whitelisted; for a request with a sort_by it is the
    descriptor of initQuery itself. *)
Theorem payloads_default_sort_by (E : Env) (r : Request) (w : World) (q : Query) :
  initQuery E r = Ok q →
  (Values_Get (URLQuery r) "sort_by" = "" →
     (∀ page pageSize q',
        CallRetrievePayloads page pageSize q' ∈ effects (Payloads E r w) →
        q' = setSortBy "created_at" q)
     ∧ ("created_at" ∉ validAllSortBy E →
        responses (effects (Payloads E r w))
        = [(400, getErrorBody E ("sort_by must be one of "
                                 +:+ strings_Join (validAllSortBy E) ", ") 400)]))
  ∧ (Values_Get (URLQuery r) "sort_by" ≠ "" →
     ∀ page pageSize q',
       CallRetrievePayloads page pageSize q' ∈ effects (Payloads E r w) →
       q' = q).
Proof.
  intros Hinit. split.
  - intros Hnone.
    assert (Hdesc : payloadsQuery r q = setSortBy "created_at" q).
    { unfold payloadsQuery. by rewrite Hnone. }
    split.
    + intros page pageSize q' Hin. rewrite <- Hdesc.
      by eapply Payloads_queries_descriptor.
    + intros Hout.
      rewrite (Payloads_rejected E r w q
                 ("sort_by must be one of " +:+ strings_Join (validAllSortBy E) ", "));
        [reflexivity|exact Hinit|].
      apply firstViolation_sortBy. by rewrite Hdesc.
  - intros Hsome page pageSize q' Hin.
    assert (Hdesc : payloadsQuery r q = q).
    { unfold payloadsQuery. apply String.eqb_neq in Hsome. by rewrite Hsome. }
    rewrite <- Hdesc. by eapply Payloads_queries_descriptor.
Qed.

Lemma payloads_default_sort_by_witness :
  initQuery fixture (Fixture.request [("sort_dir", "asc")] "" "")
  = Ok {| Page := 1; PageSize := 10; SortBy := "date"; SortDir := "asc";
          StartDate := ""; EndDate := ""; Filters := ∅ |}
  ∧ Values_Get (URLQuery (Fixture.request [("sort_dir", "asc")] "" "")) "sort_by" = ""
  ∧ CallRetrievePayloads 1 10
      {| Page := 1; PageSize := 10; SortBy := "created_at"; SortDir := "asc";
         StartDate := ""; EndDate := ""; Filters := ∅ |}
      ∈ effects (Payloads fixture (Fixture.request [("sort_dir", "asc")] "" "")
                   initWorld)
  ∧ {| Page := 1; PageSize := 10; SortBy := "created_at"; SortDir := "asc";
       StartDate := ""; EndDate := ""; Filters := ∅ |}
    = setSortBy "created_at"
        {| Page := 1; PageSize := 10; SortBy := "date"; SortDir := "asc";
           StartDate := ""; EndDate := ""; Filters := ∅ |}.
Proof.
  assert (Hin : CallRetrievePayloads 1 10
      {| Page := 1; PageSize := 10; SortBy := "created_at"; SortDir := "asc";
         StartDate := ""; EndDate := ""; Filters := ∅ |}
      ∈ effects (Payloads fixture (Fixture.request [("sort_dir", "asc")] "" "")
                   initWorld)).
  { vm_compute. apply list_elem_of_further, list_elem_of_here. }
  split; [reflexivity|]. split; [reflexivity|]. split; [exact Hin|].
  edestruct (payloads_default_sort_by fixture
               (Fixture.request [("sort_dir", "asc")] "" "") initWorld)
    as [Hdefault _]; [reflexivity|].
  destruct (Hdefault eq_refl) as [Hcall _].
  exact (Hcall _ _ _ Hin).
Defined.

(** ** The records of one request id *)

(** X9.  When a /payloads/{request_id} request passes validation and the data
    layer returns at least one record, the data layer has been called once,
    with the request id, the sort of the descriptor and the verbosity
    parameter, and the response is never 404: it is 200 with the encoding of
    the records and of the durations CalculateDurations derives from them,
    or, when that encoding fails, 500 with a fixed message, the error being
    logged. *)
Theorem request_id_found (E : Env) (r : Request) (w : World) (q : Query) :
  initQuery E r = Ok q →
  SortBy q ∈ validIDSortBy E →
  SortDir q ∈ validSortDir E →
  (0 < len (RetrieveRequestIdPayloads E (chi_URLParam r "request_id") (SortBy q)
              (SortDir q) (Values_Get (URLQuery r) "verbosity")))%nat →
  storageCalls (effects (RequestIdPayloads E r w))
    = [CallRetrieveRequestIdPayloads (chi_URLParam r "request_id") (SortBy q)
         (SortDir q) (Values_Get (URLQuery r) "verbosity")]
  ∧ match marshalPayloadRetrievebyID E
            (RetrieveRequestIdPayloads E (chi_URLParam r "request_id") (SortBy q)
               (SortDir q) (Values_Get (URLQuery r) "verbosity"))
            (CalculateDurations E
               (RetrieveRequestIdPayloads E (chi_URLParam r "request_id") (SortBy q)
                  (SortDir q) (Values_Get (URLQuery r) "verbosity"))) with
    | Ok v =>
        responses (effects (RequestIdPayloads E r w)) = [(200, JSONText v)]
        ∧ errorLogs (effects (RequestIdPayloads E r w)) = []
    | Err e =>
        responses (effects (RequestIdPayloads E r w))
        = [(500, getErrorBody E "Internal Server Issue" 500)]
        ∧ errorLogs (effects (RequestIdPayloads E r w)) = [e]
    end.
Proof.
  intros Hq Hby Hdir Hsome.
  rewrite (RequestIdPayloads_accepted E r w q Hq)
    by (by apply firstViolation_none).
  cbv zeta. revert Hsome.
  destruct (RetrieveRequestIdPayloads E _ _ _ _) as [[|p l]|]; simpl;
    intros Hsome; try lia.
  cbn [noRecords len length orb Nat.eqb].
  destruct (marshalPayloadRetrievebyID E _ _); repeat split.
Qed.

Lemma request_id_found_witness :
  storageCalls (effects (RequestIdPayloads fixture
                           (Fixture.request [("verbosity", "1")] "abc" "") initWorld))
    = [CallRetrieveRequestIdPayloads "abc" "date" "desc" "1"]
  ∧ responses (effects (RequestIdPayloads fixture
                          (Fixture.request [("verbosity", "1")] "abc" "") initWorld))
    = [(200, JSONText (JObject [("data", JArray [JString "received";
                                                  JString "processed"]);
                                ("durations", JInt 2)]))]
  ∧ errorLogs (effects (RequestIdPayloads fixture
                          (Fixture.request [("verbosity", "1")] "abc" "") initWorld))
    = [].
Proof.
  apply (request_id_found fixture (Fixture.request [("verbosity", "1")] "abc" "")
           initWorld
           {| Page := 1; PageSize := 10; SortBy := "date"; SortDir := "desc";
              StartDate := ""; EndDate := ""; Filters := ∅ |});
    [reflexivity| | |vm_compute; lia].
  - apply stringInSlice_elem. reflexivity.
  - apply stringInSlice_elem. reflexivity.
Defined.

(** ** Records that do not encode *)

(** X10.  When the records RetrievePayloads returned do not encode, the
    response of /payloads is 500 with the fixed message
    "Internal Server Issue"; the error is logged and is no part of the
    response, and by then the data layer has been called and its time
    observed. *)
Theorem payloads_encoding_failure (E : Env) (r : Request) (w : World)
    (q : Query) (e : error) :
  initQuery E r = Ok q →
  firstViolation E (validAllSortBy E) true (payloadsQuery r q) = None →
  marshalSlice (marshalPayload E)
    (RetrievePayloads E (Page q) (PageSize q) (payloadsQuery r q)).2 = Err e →
  responses (effects (Payloads E r w))
    = [(500, getErrorBody E "Internal Server Issue" 500)]
  ∧ errorLogs (effects (Payloads E r w)) = [e]
  ∧ storageCalls (effects (Payloads E r w))
    = [CallRetrievePayloads (Page q) (PageSize q) (payloadsQuery r q)]
  ∧ length (metrics (effects (Payloads E r w))) = 2%nat.
Proof.
  intros Hq Hv Hrec.
  rewrite (Payloads_accepted E r w q Hq Hv). cbv zeta.
  destruct (payloadsQuery_page r q) as [-> ->].
  unfold marshalPayloadsData. cbn [Data Count Duration]. rewrite Hrec.
  repeat split.
Qed.

Lemma payloads_encoding_failure_witness :
  responses (effects (Payloads
                        (withMarshalPayload fixture
                           (λ p, if p =? 3 then Err "json: unsupported value"
                                 else Ok (JInt p)))
                        (Fixture.request [] "" "") initWorld))
    = [(500, getErrorBody fixture "Internal Server Issue" 500)]
  ∧ errorLogs (effects (Payloads
                          (withMarshalPayload fixture
                             (λ p, if p =? 3 then Err "json: unsupported value"
                                   else Ok (JInt p)))
                          (Fixture.request [] "" "") initWorld))
    = ["json: unsupported value"].
Proof.
  edestruct (payloads_encoding_failure
               (withMarshalPayload fixture
                  (λ p, if p =? 3 then Err "json: unsupported value"
                        else Ok (JInt p)))
               (Fixture.request [] "" "") initWorld
               {| Page := 1; PageSize := 10; SortBy := "date"; SortDir := "desc";
                  StartDate := ""; EndDate := ""; Filters := ∅ |}
               "json: unsupported value")
    as (Hresp & Hlog & _); [reflexivity|reflexivity|reflexivity|].
  split; [exact Hresp|exact Hlog].
Defined.

(** ** The archive link: failures *)



(** X12.  Each stage of an authorized archive-link request fails with its own
    message, the error being logged: a request id for which the URL does not
    parse gives "Error with Request ID" and nothing is sent; a failing
    dispatch gives "Error fetching payload URL from storage-broker"; a body
    that cannot be read gives "Error reading response".  In the last two
    cases the request has been sent once. *)
Theorem archive_link_failure_stages (E : Env) (r : Request) (w : World) (e : error) :
  identityHasRole E r "platform-archive-download" = true →
  (parseURLError E (archiveURL E r) = Some e →
     effects (PayloadArchiveLink E r w)
     = [NewRequest "GET" (archiveURL E r); LogError e;
        WriteResponse 500 (getErrorBody E "Error with Request ID" 500)])
  ∧ (parseURLError E (archiveURL E r) = None →
     clientDo E (archiveRequest E r) = Err e →
     effects (PayloadArchiveLink E r w)
     = [NewRequest "GET" (archiveURL E r); ClientDo (archiveRequest E r);
        LogError e;
        WriteResponse 500
          (getErrorBody E "Error fetching payload URL from storage-broker" 500)])
  ∧ (parseURLError E (archiveURL E r) = None →
     ∀ response,
       clientDo E (archiveRequest E r) = Ok response →
       Body response = Err e →
       effects (PayloadArchiveLink E r w)
       = [NewRequest "GET" (archiveURL E r); ClientDo (archiveRequest E r);
          LogError e;
          WriteResponse 500 (getErrorBody E "Error reading response" 500)]).
Proof.
  intros Hauth. split; [|split].
  - intros Hurl. by rewrite (PayloadArchiveLink_unbuilt E r w e Hauth Hurl).
  - intros Hurl Hdo. rewrite (PayloadArchiveLink_sent E r w Hauth Hurl).
    cbv zeta. by rewrite Hdo.
  - intros Hurl response Hdo Hbody.
    rewrite (PayloadArchiveLink_sent E r w Hauth Hurl).
    cbv zeta. by rewrite Hdo, Hbody.
Qed.

Lemma archive_link_failure_stages_witness :
  effects (PayloadArchiveLink
             (withClientDo (λ _, Err "dial tcp: connection refused") fixture)
             (Fixture.request [] "abc" "platform-archive-download") initWorld)
  = [NewRequest "GET" "http://storage-broker/archive/url?request_id=abc";
     ClientDo {| Method := "GET";
                 URL := "http://storage-broker/archive/url?request_id=abc";
                 OutHeader := {["x-rh-identity" := ["platform-archive-download"]]} |};
     LogError "dial tcp: connection refused";
     WriteResponse 500
       (getErrorBody fixture "Error fetching payload URL from storage-broker" 500)]
  ∧ effects (PayloadArchiveLink fixture
               (Fixture.request [] (String "010"%char "abc")
                  "platform-archive-download") initWorld)
    = [NewRequest "GET"
         ("http://storage-broker/archive/url?request_id=" +:+ String "010"%char "abc");
       LogError "net/url: invalid control character in URL";
       WriteResponse 500 (getErrorBody fixture "Error with Request ID" 500)].
Proof.
  split.
  - edestruct (archive_link_failure_stages
                 (withClientDo (λ _, Err "dial tcp: connection refused") fixture)
                 (Fixture.request [] "abc" "platform-archive-download") initWorld
                 "dial tcp: connection refused") as (_ & Hdo & _);
      [reflexivity|].
    apply Hdo; reflexivity.
  - edestruct (archive_link_failure_stages fixture
                 (Fixture.request [] (String "010"%char "abc")
                    "platform-archive-download") initWorld
                 "net/url: invalid control character in URL") as (Hurl & _);
      [reflexivity|].
    apply Hurl; reflexivity.
Defined.

(** X13.  A body of the storage broker that is not JSON, or is JSON other
    than an object or null, is never passed on: whatever the fields of the
    archive-link struct, the response is 500 with the fixed message
    "Error unmarshaling the response", and no audit line is written. *)
Theorem archive_link_undecodable_body (E : Env) (r : Request) (w : World)
    (response : HttpResponse) (body : bytes) :
  identityHasRole E r "platform-archive-download" = true →
  parseURLError E (archiveURL E r) = None →
  clientDo E (archiveRequest E r) = Ok response →
  Body response = Ok body →
  body ≠ JSONText JNull →
  (∀ members, body ≠ JSONText (JObject members)) →
  responses (effects (PayloadArchiveLink E r w))
    = [(500, getErrorBody E "Error unmarshaling the response" 500)]
  ∧ auditLines (effects (PayloadArchiveLink E r w)) = []
  ∧ length (errorLogs (effects (PayloadArchiveLink E r w))) = 1%nat.
Proof.
  intros Hauth Hurl Hdo Hbody Hnull Hobj.
  rewrite (PayloadArchiveLink_sent E r w Hauth Hurl). cbv zeta.
  rewrite Hdo, Hbody.
  destruct (json_Unmarshal (archiveLinkShape E) body) as [link|e] eqn:Hlink;
    [|repeat split].
  destruct body as [raw|v]; [discriminate|].
  destruct (json_Unmarshal_object_or_null _ _ _ Hlink) as [->|[members ->]].
  - contradiction.
  - by destruct (Hobj members).
Qed.

Lemma archive_link_undecodable_body_witness :
  responses (effects (PayloadArchiveLink
                        (withClientDo
                           (λ _, Ok {| StatusCode := 200;
                                       Body := Ok (NotJSON "<html>busy</html>") |})
                           fixture)
                        (Fixture.request [] "abc" "platform-archive-download")
                        initWorld))
    = [(500, getErrorBody fixture "Error unmarshaling the response" 500)]
  ∧ auditLines (effects (PayloadArchiveLink
                           (withClientDo
                              (λ _, Ok {| StatusCode := 200;
                                          Body := Ok (NotJSON "<html>busy</html>") |})
                              fixture)
                           (Fixture.request [] "abc" "platform-archive-download")
                           initWorld)) = []
  ∧ length (errorLogs (effects (PayloadArchiveLink
                           (withClientDo
                              (λ _, Ok {| StatusCode := 200;
                                          Body := Ok (NotJSON "<html>busy</html>") |})
                              fixture)
                           (Fixture.request [] "abc" "platform-archive-download")
                           initWorld))) = 1%nat.
Proof.
  apply (archive_link_undecodable_body
           (withClientDo
              (λ _, Ok {| StatusCode := 200;
                          Body := Ok (NotJSON "<html>busy</html>") |})
              fixture)
           (Fixture.request [] "abc" "platform-archive-download") initWorld
           {| StatusCode := 200; Body := Ok (NotJSON "<html>busy</html>") |}
           (NotJSON "<html>busy</html>"));
    try reflexivity; discriminate.
Defined.

(** ** The archive link: the audit line and the body of a 200 *)

(** X14.  The audit line goes with the 200 and with nothing else: a run of
    the archive link writes one line by Infof, naming the request id, the
    identity header and the body as the broker sent it, exactly when it
    answers 200; on every other answer, the 401 included, it writes none. *)
Theorem archive_link_audit_line (E : Env) (r : Request) (w : World) :
  (∃ response body out,
     clientDo E (archiveRequest E r) = Ok response
     ∧ Body response = Ok body
     ∧ auditLines (effects (PayloadArchiveLink E r w))
       = [LogInfof (chi_URLParam r "request_id")
            (Values_Get (Header r) "x-rh-identity") body]
     ∧ responses (effects (PayloadArchiveLink E r w)) = [(200, out)])
  ∨ (auditLines (effects (PayloadArchiveLink E r w)) = []
     ∧ ∃ status out,
         responses (effects (PayloadArchiveLink E r w)) = [(status, out)]
         ∧ status ≠ 200).
Proof.
  archive_link_paths E r w;
    first [ by (left; eexists _, _, _; repeat split; eauto)
          | right; split; [reflexivity|];
            eexists _, _; split; [reflexivity|done] ].
Qed.





(** ** The archive link: the identity header *)

(** X17.  The request to the storage broker always carries exactly one value
    of x-rh-identity: the first value of the inbound header when it has
    several, the empty string when the inbound request has none. *)
Theorem archive_link_identity_edge (E : Env) (r : Request) (w : World) :
  identityHasRole E r "platform-archive-download" = true →
  parseURLError E (archiveURL E r) = None →
  (∀ first others,
     Header r !! "x-rh-identity" = Some (first :: others) →
     brokerCalls (effects (PayloadArchiveLink E r w))
     = [NewRequest "GET" (archiveURL E r);
        ClientDo {| Method := "GET"; URL := archiveURL E r;
                    OutHeader := {["x-rh-identity" := [first]]} |}])
  ∧ (Header r !! "x-rh-identity" = None →
     brokerCalls (effects (PayloadArchiveLink E r w))
     = [NewRequest "GET" (archiveURL E r);
        ClientDo {| Method := "GET"; URL := archiveURL E r;
                    OutHeader := {["x-rh-identity" := [""]]} |}]).
Proof.
  intros Hauth Hurl.
  assert (Hsent : brokerCalls (effects (PayloadArchiveLink E r w))
                  = [NewRequest "GET" (archiveURL E r);
                     ClientDo (archiveRequest E r)]).
  { rewrite (PayloadArchiveLink_sent E r w Hauth Hurl). cbv zeta.
    destruct (clientDo E _) as [response|e]; [|reflexivity].
    destruct (Body response) as [body|e]; [|reflexivity].
    by destruct (json_Unmarshal _ body). }
  rewrite Hsent. unfold archiveRequest. rewrite Header_Add_empty.
  unfold Values_Get. split.
  - intros first others ->. reflexivity.
  - intros ->. reflexivity.
Qed.

Lemma archive_link_identity_edge_witness :
  brokerCalls (effects (PayloadArchiveLink fixture
                          {| URLQuery := ∅;
                             URLParams := {["request_id" := "abc"]};
                             Header := {["x-rh-identity" :=
                                           ["platform-archive-download"; "second"]]} |}
                          initWorld))
  = [NewRequest "GET" "http://storage-broker/archive/url?request_id=abc";
     ClientDo {| Method := "GET";
                 URL := "http://storage-broker/archive/url?request_id=abc";
                 OutHeader := {["x-rh-identity" := ["platform-archive-download"]]} |}].
Proof.
  edestruct (archive_link_identity_edge fixture
               {| URLQuery := ∅;
                  URLParams := {["request_id" := "abc"]};
                  Header := {["x-rh-identity" :=
                                ["platform-archive-download"; "second"]]} |}
               initWorld) as [Hfirst _]; [reflexivity|reflexivity|].
  apply (Hfirst "platform-archive-download" ["second"]). reflexivity.
Defined.
